(** * whisper-serverless: the transcription handler

    A shallow embedding of [packages/sample/emails/__main__.py]: the three
    functions [convert_audio_to_wav], [transcribe_audio] and [main], written
    in a small monad that threads the temporary-file store, carries Python
    exceptions as the left summand of the result, and emits the sequence of
    externally visible events of a run.

    The external collaborators (base64 decoding, [requests.get], the ffmpeg
    path lookup, pydub's decoder and its three setters, the WAV export and
    the Groq client) are black boxes of the program, so they are fields of an
    environment record [Env]; every theorem quantifies over all environments.

    Modelling choices: what a call raises is an instance of [Exception],
    known by its [str], or a [BaseException] outside that class, known by its
    name; strings are byte strings and [str.lower] acts on the
    ASCII letters; the assignment [AudioSegment.converter = ffmpeg_path] is
    not observed by anything in the file and is left out; of the operating
    system's faults only the refusal to create a temporary file is modelled. *)

From Stdlib Require Import ZArith String List Ascii.
From Stdlib.Strings Require Import Byte.
From stdpp Require Import gmap strings list fin_maps pretty.

Open Scope string_scope.
Open Scope Z_scope.
Open Scope list_scope.

(** ** Python values, exceptions, files *)

(** The values a request mapping can hold (the handler receives decoded
    JSON). *)
#[local] Set Warnings "-register-all".
Inductive pyval :=
| PyNone
| PyBool (b : bool)
| PyInt (z : Z)
| PyStr (s : string)
| PyList (l : list pyval).
#[local] Set Warnings "register-all".

(** Python truthiness, as used by [if original_filename] and
    [filename if filename else ...]. *)
Definition truthy (v : pyval) : bool :=
  match v with
  | PyNone => false
  | PyBool b => b
  | PyInt z => negb (z =? 0)
  | PyStr s => negb (String.eqb s "")
  | PyList l => match l with [] => false | _ => true end
  end.

(** [isinstance(v, str)] *)
Definition is_str (v : pyval) : bool :=
  match v with PyStr _ => true | _ => false end.

Definition bytes := list Byte.byte.

(** An instance of [Exception]; [exn_str] is [str(e)]. *)
Record exn := Exception { exn_str : string }.

(** What a call can raise, any [BaseException]: an instance of [Exception],
    which [except Exception] catches, or one of the exceptions outside that
    class ([KeyboardInterrupt], [SystemExit], [GeneratorExit]), which it lets
    through. *)
Inductive raised :=
| Exc (e : exn)
| Interrupt (name : string).

Coercion Exc : exn >-> raised.

(** The expected type of [inl e], [Some e] and of a tuple is used to read
    their components, so that an [e : exn] is read as [Exc e] where a
    [raised] is expected. *)
#[global] Arguments inl {A B} & _.
#[global] Arguments Some {A} & _.
#[global] Arguments pair {A B} & _ _.

(** [type(v).__name__] *)
Definition type_name (v : pyval) : string :=
  match v with
  | PyNone => "NoneType"
  | PyBool _ => "bool"
  | PyInt _ => "int"
  | PyStr _ => "str"
  | PyList _ => "list"
  end.

(** The double quote character, as a string. *)
Definition dquote : string := String (ascii_of_nat 34) EmptyString.

(** A temporary file made by [tempfile.NamedTemporaryFile(delete=False)]:
    the suffix of its name and its contents.  The random part of the name is
    the key of the file in the store. *)
Record tmpfile := TmpFile { tf_suffix : string; tf_data : bytes }.

Abbreviation path := nat (only parsing).
Abbreviation FS := (gmap nat tmpfile) (only parsing).

Record http_response := HttpResponse { status_code : Z; content : bytes }.

(** ** Events of a run *)

(** [ECallConvert] and [ECallTranscribe] mark the entry into the two
    functions with their arguments; the others are the effects the code
    performs: the GET, the creation and removal of a temporary file, a decode
    attempt with its [format] argument, the call of the transcription
    service, a [print]. *)

Inductive event :=
| ECallConvert (audio_data : option bytes) (original_filename : pyval)
| ECallTranscribe (audio_data : bytes) (filename language : pyval)
| EHttpGet (url : pyval)
| ETmpCreate (p : path) (suffix : string)
| EFromFile (p : path) (format : option string)
| EUnlink (p : path)
| EServiceCall (file_name : pyval) (file_data : bytes) (language : pyval)
| EPrint (msg : string).

(** ** The monad: file store, exceptions, emitted events *)

Definition M (A : Type) : Type := FS -> (raised + A) * FS * list event.

Definition ret {A} (a : A) : M A := fun fs => (inr a, fs, []).

Definition raise {A} (e : raised) : M A := fun fs => (inl e, fs, []).

Definition bind {A B} (m : M A) (f : A -> M B) : M B :=
  fun fs =>
    match m fs with
    | (inl e, fs1, t1) => (inl e, fs1, t1)
    | (inr a, fs1, t1) =>
        match f a fs1 with
        | (r, fs2, t2) => (r, fs2, t1 ++ t2)
        end
    end.

(** [try: m except Exception as e: h e].  The handler runs for an instance
    of [Exception] only; any other [BaseException] goes through. *)
Definition try_except {A} (m : M A) (h : exn -> M A) : M A :=
  fun fs =>
    match m fs with
    | (inr a, fs1, t1) => (inr a, fs1, t1)
    | (inl (Exc e), fs1, t1) =>
        match h e fs1 with
        | (r, fs2, t2) => (r, fs2, t1 ++ t2)
        end
    | (inl (Interrupt name), fs1, t1) => (inl (Interrupt name), fs1, t1)
    end.

Definition emit (ev : event) : M unit := fun fs => (inr tt, fs, [ev]).

(** A call of a collaborator that returns or raises and touches no file. *)
Definition lift {A} (r : raised + A) : M A := fun fs => (r, fs, []).

Declare Scope py_scope.
Delimit Scope py_scope with py.
Notation "x <- m ;; k" := (bind m (fun x => k))
  (at level 100, m at next level, right associativity) : py_scope.
Notation "m ;;; k" := (bind m (fun _ => k))
  (at level 100, right associativity) : py_scope.
Open Scope py_scope.

Definition print (msg : string) : M unit := emit (EPrint msg).

(** ** File operations *)

(** [open(p, "rb").read()] *)
Definition read_file (p : path) : M tmpfile :=
  fun fs =>
    match fs !! p with
    | Some f => (inr f, fs, [])
    | None => (inl (Exception "No such file or directory"), fs, [])
    end.

(** [os.unlink(p)] *)
Definition unlink (p : path) : M unit :=
  fun fs =>
    match fs !! p with
    | Some _ => (inr tt, delete p fs, [EUnlink p])
    | None => (inl (Exception "No such file or directory"), fs, [])
    end.

(** ** [os.path.splitext], [str.lower], [str.replace('.', '')] *)

Fixpoint rfind_from (c : ascii) (s : string) (i : Z) (last : Z) : Z :=
  match s with
  | EmptyString => last
  | String a s' => rfind_from c s' (i + 1) (if Ascii.eqb a c then i else last)
  end.

(** [s.rfind(c)]: the last index of [c], or [-1]. *)
Definition rfind (c : ascii) (s : string) : Z := rfind_from c s 0 (-1).

(** The [while filenameIndex < dotIndex] loop of [genericpath._splitext]:
    is there a character other than a dot in [p[filenameIndex:dotIndex]]?
    [n] is the number of iterations left, [dotIndex - filenameIndex]. *)
Fixpoint has_non_dot (p : string) (filenameIndex : nat) (n : nat) : bool :=
  match n with
  | O => false
  | S n' =>
      match String.get filenameIndex p with
      | Some "."%char => has_non_dot p (S filenameIndex) n'
      | _ => true
      end
  end.

(** [os.path.splitext(p)[1]] on a POSIX system. *)
Definition splitext_ext (p : string) : string :=
  let sepIndex := rfind "/" p in
  let dotIndex := rfind "." p in
  if (dotIndex >? sepIndex) &&
     has_non_dot p (Z.to_nat (sepIndex + 1)) (Z.to_nat (dotIndex - (sepIndex + 1)))
  then String.substring (Z.to_nat dotIndex)
         (String.length p - Z.to_nat dotIndex) p
  else "".

Definition lower_ascii (c : ascii) : ascii :=
  let n := nat_of_ascii c in
  if ((65 <=? n) && (n <=? 90))%nat then ascii_of_nat (n + 32) else c.

(** [s.lower()], on the ASCII letters. *)
Fixpoint lower (s : string) : string :=
  match s with
  | EmptyString => EmptyString
  | String a s' => String (lower_ascii a) (lower s')
  end.

(** [s.replace('.', '')] *)
Fixpoint remove_dots (s : string) : string :=
  match s with
  | EmptyString => EmptyString
  | String a s' =>
      if Ascii.eqb a "." then remove_dots s' else String a (remove_dots s')
  end.

Definition known_formats : list string :=
  ["mp3"; "wav"; "flac"; "ogg"; "aac"; "m4a"; "wma"].

Definition in_list (s : string) (l : list string) : bool :=
  existsb (String.eqb s) l.

(** [input_format and input_format in [...]] for an [input_format] that is
    [None] or a string. *)
Definition use_hint (input_format : option string) : option string :=
  match input_format with
  | Some f =>
      if negb (String.eqb f "") && in_list f known_formats then Some f else None
  | None => None
  end.

(** The extension-derived format: [None] when [original_filename] is falsy,
    else [os.path.splitext(original_filename)[1].lower().replace('.', '')].
    [os.path.splitext] raises [TypeError] on a value that is not a string. *)
Definition input_format_of (original_filename : pyval)
  : raised + option string :=
  if truthy original_filename then
    match original_filename with
    | PyStr s => inr (Some (remove_dots (lower (splitext_ext s))))
    | v => inl (Exception ("expected str, bytes or os.PathLike object, not "
                           +:+ type_name v))
    end
  else inr None.

(** ** Responses *)

Section Handler.

(** [AudioSegment] and the object returned by the transcription service. *)
Context {Sound Transcription : Type}.

(** The values of the [body] dict. *)
Inductive bodyval :=
| BStr (s : string)
| BObj (t : Transcription).

(** [{'statusCode': ..., 'body': {...}}]; the body dict keeps its keys in
    the order of the literal. *)
Record response := Response {
  statusCode : Z;
  body : list (string * bodyval)
}.

(** ** The collaborators *)

Record Env := {
  (** [base64.b64decode(v)] *)
  b64decode : pyval -> raised + bytes;
  (** [requests.get(url)] *)
  requests_get : pyval -> raised + http_response;
  (** [ffmpeg_static.get_ffmpeg_exe()] *)
  get_ffmpeg_exe : raised + string;
  (** The operating system's refusal, if any, to create a temporary file
      whose name ends with this suffix (one with a path separator, for
      instance, names a directory that does not exist). *)
  mkstemp_error : string -> option raised;
  (** [AudioSegment.from_file(path, format=...)] on the file at [path] *)
  from_file_decode : tmpfile -> option string -> raised + Sound;
  (** [sound.set_frame_rate(r)], [sound.set_channels(c)],
      [sound.set_sample_width(w)] *)
  set_frame_rate : Sound -> Z -> raised + Sound;
  set_channels : Sound -> Z -> raised + Sound;
  set_sample_width : Sound -> Z -> raised + Sound;
  (** [sound.export(buf, format=..., codec=...)] followed by
      [buf.getvalue()] *)
  export : Sound -> string -> string -> raised + bytes;
  (** [client.audio.transcriptions.create(file=(name, data), model=...,
      prompt=..., language=..., response_format=...)] *)
  transcriptions_create :
    pyval -> bytes -> string -> string -> pyval -> string -> raised + Transcription;
  (** [transcription.text] *)
  text : Transcription -> string
}.

Context (env : Env).

(** [with tempfile.NamedTemporaryFile(delete=False, suffix=...) as f:
       f.write(data); name = f.name]
    A suffix that is not a string raises [TypeError], and a suffix the
    operating system refuses raises its error, both before any file exists.
    Otherwise an empty file with an unused name is created; [f.write] then
    stores [data], or raises [TypeError] when [data] is Python's [None]
    ([data = None] below); leaving the [with] block closes the file and, as
    [delete=False], the file stays in either case. *)
Definition NamedTemporaryFile (suffix : pyval) (data : option bytes) : M path :=
  match suffix with
  | PyStr s =>
      match mkstemp_error env s with
      | Some e => raise e
      | None =>
          fun fs =>
            let p := fresh (dom fs) in
            match data with
            | Some d => (inr p, <[p := TmpFile s d]> fs, [ETmpCreate p s])
            | None =>
                (inl (Exception
                        "a bytes-like object is required, not 'NoneType'"),
                 <[p := TmpFile s []]> fs, [ETmpCreate p s])
            end
      end
  | v =>
      raise (Exception ("can only concatenate str (not " +:+ dquote
                        +:+ type_name v +:+ dquote +:+ ") to str"))
  end.

(** [AudioSegment.from_file(p, format=fmt)] *)
Definition from_file (p : path) (fmt : option string) : M Sound :=
  emit (EFromFile p fmt) ;;;
  f <- read_file p ;;
  lift (from_file_decode env f fmt).

(** ** [convert_audio_to_wav] *)

Definition convert_audio_to_wav
    (audio_data : option bytes) (original_filename : pyval) : M bytes :=
  emit (ECallConvert audio_data original_filename) ;;;
  try_except
    (ffmpeg_path <- lift (get_ffmpeg_exe env) ;;
     temp_in_path <-
       NamedTemporaryFile
         (if truthy original_filename then original_filename
          else PyStr ".audio")
         audio_data ;;
     input_format <- lift (input_format_of original_filename) ;;
     sound <-
       try_except
         (match use_hint input_format with
          | Some f => from_file temp_in_path (Some f)
          | None => from_file temp_in_path None
          end)
         (fun e =>
            print ("Error loading audio: " +:+ exn_str e) ;;;
            from_file temp_in_path None) ;;
     sound <- lift (set_frame_rate env sound 16000) ;;
     sound <- lift (set_channels env sound 1) ;;
     sound <- lift (set_sample_width env sound 2) ;;
     wav_data <- lift (export env sound "wav" "pcm_s16le") ;;
     unlink temp_in_path ;;;
     ret wav_data)
    (fun e =>
       print ("Error converting audio: " +:+ exn_str e) ;;;
       raise e).

(** ** [transcribe_audio] *)

Definition transcribe_audio (audio_data : bytes) (filename language : pyval)
  : M Transcription :=
  emit (ECallTranscribe audio_data filename language) ;;;
  try_except
    (temp_file_path <- NamedTemporaryFile (PyStr ".wav") (Some audio_data) ;;
     file <- read_file temp_file_path ;;
     let file_name := if truthy filename then filename else PyStr "audio.wav" in
     emit (EServiceCall file_name (tf_data file) language) ;;;
     transcription <-
       lift (transcriptions_create env file_name (tf_data file)
               "whisper-large-v3-turbo"
               "Please separate different speakers and label them."
               language "verbose_json") ;;
     unlink temp_file_path ;;;
     ret transcription)
    (fun e =>
       print ("Error transcribing audio: " +:+ exn_str e) ;;;
       raise e).

(** ** [main] *)

Definition args_get (args : gmap string pyval) (k : string) (d : pyval) : pyval :=
  default d (args !! k).

Definition has_key (args : gmap string pyval) (k : string) : bool :=
  match args !! k with Some _ => true | None => false end.

(** [args[k]] *)
Definition args_item (args : gmap string pyval) (k : string) : M pyval :=
  match args !! k with
  | Some v => ret v
  | None => raise (Exception ("'" +:+ k +:+ "'"))
  end.

Definition error_response (code : Z) (msg : string) : response :=
  Response code [("error", BStr msg)].

(** The [if 'audio_data' in args: ... elif 'audio_url' in args: ...]
    statement of [main]: it finishes with the value of the variable
    [audio_data] ([inr], [None] being its initial value) or with the response
    returned from inside the [elif] branch ([inl]). *)
Definition resolve_audio_data (args : gmap string pyval)
  : M (response + option bytes) :=
  if has_key args "audio_data" then
    v <- args_item args "audio_data" ;;
    audio_data <- lift (b64decode env v) ;;
    ret (inr (Some audio_data))
  else if has_key args "audio_url" then
    url <- args_item args "audio_url" ;;
    emit (EHttpGet url) ;;;
    response <- lift (requests_get env url) ;;
    if negb (status_code response =? 200) then
      ret (inl (error_response 400
                  ("Failed to download audio from URL. Status code: "
                   +:+ pretty (status_code response))))
    else ret (inr (Some (content response)))
  else ret (inr None).

(** The body of the [try] block of [main]. *)
Definition main_body (args : gmap string pyval) : M response :=
  let filename := args_get args "filename" (PyStr "audio.wav") in
  let language := args_get args "language" (PyStr "en") in
  if negb (has_key args "audio_data") && negb (has_key args "audio_url") then
    ret (error_response 400
           "Missing required parameter: either audio_data or audio_url")
  else
    r <- resolve_audio_data args ;;
    match r with
    | inl returned => ret returned
    | inr audio_data =>
        wav_data <- convert_audio_to_wav audio_data filename ;;
        transcription <- transcribe_audio wav_data filename language ;;
        ret (Response 200
               [("transcription_text", BStr (text env transcription));
                ("full_transcription", BObj transcription)])
    end.

(** The response of the success path, for a service result [tr]. *)
Definition success_response (tr : Transcription) : response :=
  Response 200 [("transcription_text", BStr (text env tr));
                ("full_transcription", BObj tr)].

(** What the [except Exception] clause of [main] makes of something raised
    in the [try] block: a 500 answer for an instance of [Exception]; any
    other [BaseException] leaves [main]. *)
Definition main_on_raise (x : raised) : raised + response :=
  match x with
  | Exc e => inr (error_response 500 (exn_str e))
  | Interrupt name => inl (Interrupt name)
  end.

Definition main (args : gmap string pyval) : M response :=
  try_except (main_body args)
    (fun e => ret (error_response 500 (exn_str e))).

End Handler.

Arguments Env : clear implicits.
Arguments response : clear implicits.
Arguments bodyval : clear implicits.

(** ** Reading the events of a run *)

(** The format arguments of the [AudioSegment.from_file] calls, in order. *)
Fixpoint decode_attempts (t : list event) : list (option string) :=
  match t with
  | [] => []
  | EFromFile _ fmt :: t' => fmt :: decode_attempts t'
  | _ :: t' => decode_attempts t'
  end.

Definition is_side_effect_of_pipeline (ev : event) : bool :=
  match ev with
  | ECallConvert _ _ | ECallTranscribe _ _ _ | ETmpCreate _ _
  | EFromFile _ _ | EUnlink _ | EServiceCall _ _ _ => true
  | EHttpGet _ | EPrint _ => false
  end.

Definition is_http_get (ev : event) : bool :=
  match ev with EHttpGet _ => true | _ => false end.

(** The events one call of [convert_audio_to_wav d f] may emit. *)
Definition convert_event (d : option bytes) (f : pyval) (ev : event) : Prop :=
  match ev with
  | ECallConvert d' f' => d' = d /\ f' = f
  | ETmpCreate _ _ | EFromFile _ _ | EUnlink _ | EPrint _ => True
  | ECallTranscribe _ _ _ | EHttpGet _ | EServiceCall _ _ _ => False
  end.

(** The events one call of [transcribe_audio] may emit. *)
Definition transcribe_event (ev : event) : Prop :=
  match ev with
  | ECallTranscribe _ _ _ | ETmpCreate _ _ | EServiceCall _ _ _
  | EUnlink _ | EPrint _ => True
  | ECallConvert _ _ | EHttpGet _ | EFromFile _ _ => False
  end.

(** How many events of a run satisfy [p]. *)
Definition count_events (p : event -> bool) (t : list event) : nat :=
  length (List.filter p t).

Definition is_service_call (ev : event) : bool :=
  match ev with EServiceCall _ _ _ => true | _ => false end.

Definition is_call_convert (ev : event) : bool :=
  match ev with ECallConvert _ _ => true | _ => false end.

Definition is_call_transcribe (ev : event) : bool :=
  match ev with ECallTranscribe _ _ _ => true | _ => false end.

(** ** Concrete collaborators, to run the handler on examples *)

Module Demo.

Record transcript := Transcript { t_text : string; t_language : pyval }.

Definition wav_of (d : bytes) : bytes := d.

(** A world in which the URL answers with status [status], the decoder
    accepts exactly the format arguments selected by [decodes], and the
    transcription service answers when [service_up] holds. *)
Definition env (status : Z) (decodes : option string -> bool) (service_up : bool)
  : Env bytes transcript :=
  {| b64decode v :=
       match v with
       | PyStr _ => inr [x52; x49; x46; x46] (* RIFF *)
       | _ => inl (Exception "argument should be a bytes-like object or ASCII string")
       end;
     requests_get _ := inr (HttpResponse status [x49; x44; x33]);
     get_ffmpeg_exe := inr "/usr/bin/ffmpeg";
     mkstemp_error s :=
       if in_list "/" (map (fun c => String c EmptyString) (list_ascii_of_string s))
       then Some (Exception "No such file or directory")
       else None;
     from_file_decode f fmt :=
       if decodes fmt then inr (tf_data f)
       else inl (Exception "Decoding failed. ffmpeg returned error code: 1");
     set_frame_rate s _ := inr s;
     set_channels s _ := inr s;
     set_sample_width s _ := inr s;
     export s _ _ := inr (wav_of s);
     transcriptions_create _ _ _ _ language _ :=
       if service_up then inr (Transcript "hello" language)
       else inl (Exception "Error code: 401");
     text := t_text |}.

Definition always (_ : option string) : bool := true.
Definition never (_ : option string) : bool := false.
Definition unhinted_only (fmt : option string) : bool :=
  match fmt with None => true | Some _ => false end.

Definition args_data : gmap string pyval :=
  <["audio_data" := PyStr "UklGRg=="]> ∅.
Definition args_url : gmap string pyval :=
  <["audio_url" := PyStr "http://example.org/a.mp3"]> ∅.
Definition args_both : gmap string pyval :=
  <["audio_data" := PyStr "UklGRg=="]> args_url.
Definition args_named : gmap string pyval :=
  <["filename" := PyStr "talk.mp3"]> args_data.

Definition args_empty_name : gmap string pyval :=
  <["filename" := PyStr ""]> args_data.

Definition riff : bytes := [x52; x49; x46; x46].

(** The run of a good upload: what [main] answers and what it does. *)
Definition ok_response : response transcript :=
  Response 200 [("transcription_text", BStr "hello");
                ("full_transcription", BObj (Transcript "hello" (PyStr "en")))].

Definition ok_trace : list event :=
  [ECallConvert (Some riff) (PyStr "audio.wav");
   ETmpCreate 0%nat "audio.wav"; EFromFile 0%nat (Some "wav"); EUnlink 0%nat;
   ECallTranscribe riff (PyStr "audio.wav") (PyStr "en");
   ETmpCreate 0%nat ".wav";
   EServiceCall (PyStr "audio.wav") riff (PyStr "en");
   EUnlink 0%nat].

(** A world where everything works, and two where a collaborator is out
    of reach. *)
Definition good : Env bytes transcript := env 200 always true.





Definition id3 : bytes := [x49; x44; x33].

Definition convert_ok_trace : list event :=
  [ECallConvert (Some riff) (PyStr "audio.wav");
   ETmpCreate 0%nat "audio.wav"; EFromFile 0%nat (Some "wav"); EUnlink 0%nat].

(** A store that already holds a file. *)
Definition busy : gmap nat tmpfile := {[ 7%nat := TmpFile "keep.txt" riff ]}.

End Demo.

(** ** Properties *)

Section Properties.

Context {Sound Transcription : Type} (env : Env Sound Transcription).

(** *** The monad *)

Lemma bind_inv {A B} (m : M A) (f : A -> M B) fs r fs' t :
  bind m f fs = (r, fs', t) ->
  (exists e, m fs = (inl e, fs', t) /\ r = inl e) \/
  (exists a fs1 t1 t2,
      m fs = (inr a, fs1, t1) /\ f a fs1 = (r, fs', t2) /\ t = t1 ++ t2).
Proof.
  unfold bind. destruct (m fs) as [[[e|a] fs1] t1].
  - intros [= ? ? ?]; subst. left. exists e. split; reflexivity.
  - destruct (f a fs1) as [[r2 fs2] t2] eqn:Ef. intros [= ? ? ?]; subst.
    right. exists a, fs1, t1, t2. split; [reflexivity | split; [exact Ef | reflexivity]].
Qed.

Lemma try_except_inv {A} (m : M A) (h : exn -> M A) fs r fs' t :
  try_except m h fs = (r, fs', t) ->
  (exists a, m fs = (inr a, fs', t) /\ r = inr a) \/
  (exists (e : exn) fs1 t1 t2,
      m fs = (inl e, fs1, t1) /\ h e fs1 = (r, fs', t2) /\ t = t1 ++ t2) \/
  (exists name, m fs = (inl (Interrupt name), fs', t) /\
                r = inl (Interrupt name)).
Proof.
  unfold try_except. destruct (m fs) as [[[[e|name]|a] fs1] t1].
  - destruct (h e fs1) as [[r2 fs2] t2] eqn:Eh. intros [= ? ? ?]; subst.
    right. left. exists e, fs1, t1, t2.
    split; [reflexivity | split; [exact Eh | reflexivity]].
  - intros [= ? ? ?]; subst. right. right. exists name. split; reflexivity.
  - intros [= ? ? ?]; subst. left. exists a. split; reflexivity.
Qed.

Lemma bind_inr {A B} (m : M A) (f : A -> M B) fs a fs1 t1 r fs2 t2 :
  m fs = (inr a, fs1, t1) -> f a fs1 = (r, fs2, t2) ->
  bind m f fs = (r, fs2, t1 ++ t2).
Proof. unfold bind. by intros -> ->. Qed.

Lemma bind_inl {A B} (m : M A) (f : A -> M B) fs e fs1 t1 :
  m fs = (inl e, fs1, t1) -> bind m f fs = (inl e, fs1, t1).
Proof. unfold bind. by intros ->. Qed.

Lemma try_except_inr {A} (m : M A) (h : exn -> M A) fs a fs1 t1 :
  m fs = (inr a, fs1, t1) -> try_except m h fs = (inr a, fs1, t1).
Proof. unfold try_except. by intros ->. Qed.

Lemma try_except_inl {A} (m : M A) (h : exn -> M A) fs (e : exn)
    fs1 t1 r fs2 t2 :
  m fs = (inl e, fs1, t1) -> h e fs1 = (r, fs2, t2) ->
  try_except m h fs = (r, fs2, t1 ++ t2).
Proof. unfold try_except. by intros -> ->. Qed.

Lemma try_except_interrupt {A} (m : M A) (h : exn -> M A) fs name fs1 t1 :
  m fs = (inl (Interrupt name), fs1, t1) ->
  try_except m h fs = (inl (Interrupt name), fs1, t1).
Proof. unfold try_except. by intros ->. Qed.

Lemma lift_inv {A} (x : raised + A) fs r fs' t :
  lift x fs = (r, fs', t) -> r = x /\ fs' = fs /\ t = [].
Proof. unfold lift. intros [= ? ? ?]; subst. auto. Qed.

Lemma fresh_path_unused (fs : FS) : fs !! fresh (dom fs) = None.
Proof. apply not_elem_of_dom, is_fresh. Qed.

Lemma create_then_delete (fs : FS) (f : tmpfile) :
  delete (fresh (dom fs)) (<[fresh (dom fs) := f]> fs) = fs.
Proof.
  rewrite delete_insert_eq. apply delete_id, fresh_path_unused.
Qed.

Lemma ret_inv {A} (a : A) fs r fs' t :
  ret a fs = (r, fs', t) -> r = inr a /\ fs' = fs /\ t = [].
Proof. unfold ret. intros [= ? ? ?]; subst. auto. Qed.

Lemma raise_inv {A} (e : raised) fs (r : raised + A) fs' t :
  raise e fs = (r, fs', t) -> r = inl e /\ fs' = fs /\ t = [].
Proof. unfold raise. intros [= ? ? ?]; subst. auto. Qed.

Lemma emit_inv ev fs r fs' t :
  emit ev fs = (r, fs', t) -> r = inr tt /\ fs' = fs /\ t = [ev].
Proof. unfold emit. intros [= ? ? ?]; subst. auto. Qed.

Lemma print_inv msg fs r fs' t :
  print msg fs = (r, fs', t) -> r = inr tt /\ fs' = fs /\ t = [EPrint msg].
Proof. apply emit_inv. Qed.

Lemma read_file_inv p fs r fs' t :
  read_file p fs = (r, fs', t) ->
  fs' = fs /\ t = [] /\
  match r with inr f => fs !! p = Some f | inl _ => fs !! p = None end.
Proof.
  unfold read_file. destruct (fs !! p); intros [= ? ? ?]; subst; auto.
Qed.

Lemma unlink_inv p fs r fs' t :
  unlink p fs = (r, fs', t) ->
  (r = inr tt /\ fs' = delete p fs /\ t = [EUnlink p] /\ is_Some (fs !! p)) \/
  (exists e, r = inl e /\ fs' = fs /\ t = [] /\ fs !! p = None).
Proof.
  unfold unlink. destruct (fs !! p) eqn:E; intros [= ? ? ?]; subst.
  - left. eauto.
  - right. eauto.
Qed.

Lemma NamedTemporaryFile_inv suffix data fs r fs' t :
  NamedTemporaryFile env suffix data fs = (r, fs', t) ->
  (exists e, r = inl e /\ fs' = fs /\ t = [] /\
             forall s, suffix = PyStr s -> mkstemp_error env s = Some e) \/
  (exists e s, r = inl e /\ suffix = PyStr s /\ data = None /\
               mkstemp_error env s = None /\
               fs' = <[fresh (dom fs) := TmpFile s []]> fs /\
               t = [ETmpCreate (fresh (dom fs)) s]) \/
  (exists s d, r = inr (fresh (dom fs)) /\ suffix = PyStr s /\ data = Some d /\
               mkstemp_error env s = None /\
               fs' = <[fresh (dom fs) := TmpFile s d]> fs /\
               t = [ETmpCreate (fresh (dom fs)) s]).
Proof.
  unfold NamedTemporaryFile, raise.
  destruct suffix as [| | |s|];
    try (intros [= ? ? ?]; subst; left; eexists; by eauto).
  destruct (mkstemp_error env s) as [e|] eqn:Em.
  - intros [= ? ? ?]; subst. left. exists e. repeat split; try done.
    by intros ? [= <-].
  - destruct data; intros [= ? ? ?]; subst; right; [right|left]; eauto 10.
Qed.

Lemma from_file_inv p fmt fs r fs' t :
  from_file env p fmt fs = (r, fs', t) ->
  fs' = fs /\ t = [EFromFile p fmt] /\
  match fs !! p with
  | Some f => r = from_file_decode env f fmt
  | None => exists e, r = inl e
  end.
Proof.
  unfold from_file, bind, emit, read_file, lift.
  destruct (fs !! p) as [f|]; [destruct (from_file_decode env f fmt)|];
    intros [= ? ? ?]; subst; eauto.
Qed.

Lemma from_file_run p fmt fs f :
  fs !! p = Some f ->
  from_file env p fmt fs = (from_file_decode env f fmt, fs, [EFromFile p fmt]).
Proof.
  intros Hp. unfold from_file, bind, emit, read_file, lift. rewrite Hp.
  by destruct (from_file_decode env f fmt).
Qed.

(** One step of symbolic execution of a hypothesis that describes a run. *)
Ltac run_step :=
  match goal with
  | H : lift _ _ = _ |- _ => apply lift_inv in H as (? & ? & ?)
  | H : ret _ _ = _ |- _ => apply ret_inv in H as (? & ? & ?)
  | H : raise _ _ = _ |- _ => apply raise_inv in H as (? & ? & ?)
  | H : emit _ _ = _ |- _ => apply emit_inv in H as (? & ? & ?)
  | H : print _ _ = _ |- _ => apply print_inv in H as (? & ? & ?)
  | H : read_file _ _ = _ |- _ => apply read_file_inv in H as (? & ? & ?)
  | H : unlink _ _ = _ |- _ =>
      apply unlink_inv in H as [(? & ? & ? & ?) | (? & ? & ? & ? & ?)]
  | H : NamedTemporaryFile _ _ _ _ = _ |- _ =>
      apply NamedTemporaryFile_inv in H
        as [(? & ? & ? & ? & ?) | [(? & ? & ? & ? & ? & ? & ? & ?)
                                  | (? & ? & ? & ? & ? & ? & ? & ?)]]
  | H : from_file _ _ _ _ = _ |- _ => apply from_file_inv in H as (? & ? & ?)
  | H : match use_hint ?x with _ => _ end _ = _ |- _ =>
      destruct (use_hint x) eqn:?
  | H : bind _ _ _ = _ |- _ =>
      apply bind_inv in H as [(? & ? & ?) | (? & ? & ? & ? & ? & ? & ?)]
  | H : try_except _ _ _ = _ |- _ =>
      apply try_except_inv in H
        as [(? & ? & ?) | [(? & ? & ? & ? & ? & ? & ?) | (? & ? & ?)]]
  end; simplify_eq.

Ltac run := repeat run_step.

(** *** [convert_audio_to_wav] *)

Lemma convert_emits_call d f fs r fs' t :
  convert_audio_to_wav env d f fs = (r, fs', t) ->
  exists t', t = ECallConvert d f :: t'.
Proof.
  unfold convert_audio_to_wav. intros H. run_step; run_step; simpl; eauto.
Qed.

(** A call that returns leaves the file store as it found it. *)
Lemma convert_returns_store d f fs w fs' t :
  convert_audio_to_wav env d f fs = (inr w, fs', t) -> fs' = fs.
Proof.
  unfold convert_audio_to_wav. intros H. run; apply create_then_delete.
Qed.

(** *** [transcribe_audio] *)

Lemma transcribe_emits_call d f l fs r fs' t :
  transcribe_audio env d f l fs = (r, fs', t) ->
  exists t', t = ECallTranscribe d f l :: t'.
Proof.
  unfold transcribe_audio. intros H. run_step; run_step; simpl; eauto.
Qed.

Lemma transcribe_returns_store d f l fs x fs' t :
  transcribe_audio env d f l fs = (inr x, fs', t) -> fs' = fs.
Proof.
  unfold transcribe_audio. intros H. run; apply create_then_delete.
Qed.

(** C1 (the code breaks it): the temporary file of a call is gone when the
    call returns, but not when it raises after the file was created.  When
    both decode attempts fail, [convert_audio_to_wav] raises and the file it
    created is still in the store; when the service call fails,
    [transcribe_audio] raises and its file is still in the store. *)
Theorem temp_file_left_behind_on_failure
    (d wav : bytes) (s ffmpeg : string) (fname lang : pyval)
    (fs : gmap nat tmpfile) (e1 e2 e3 : exn) :
  truthy (PyStr s) = true ->
  get_ffmpeg_exe env = inr ffmpeg ->
  mkstemp_error env s = None ->
  mkstemp_error env ".wav" = None ->
  from_file_decode env (TmpFile s d)
    (use_hint (Some (remove_dots (lower (splitext_ext s))))) = inl e1 ->
  from_file_decode env (TmpFile s d) None = inl e2 ->
  transcriptions_create env (if truthy fname then fname else PyStr "audio.wav")
    wav "whisper-large-v3-turbo"
    "Please separate different speakers and label them." lang "verbose_json"
    = inl e3 ->
  let p := fresh (dom fs) in
  fs !! p = None /\
  (exists t, convert_audio_to_wav env (Some d) (PyStr s) fs
             = (inl e2, <[p := TmpFile s d]> fs, t)) /\
  (exists t, transcribe_audio env wav fname lang fs
             = (inl e3, <[p := TmpFile ".wav" wav]> fs, t)).
Proof.
  intros Hs Hff Hmk Hmk' H1 H2 H3 p. split; [apply fresh_path_unused|].
  split.
  - remember (use_hint (Some (remove_dots (lower (splitext_ext s))))) as h
      eqn:Eh.
    assert (exists t, from_file env p h (<[p := TmpFile s d]> fs)
                      = (inl e1, <[p := TmpFile s d]> fs, t)) as [t1 Ht1].
    { eexists. by rewrite (from_file_run _ _ _ _ (lookup_insert_eq _ _ _)), H1. }
    eexists. unfold convert_audio_to_wav.
    eapply bind_inr; [reflexivity|].
    eapply try_except_inl.
    2:{ eapply bind_inr; reflexivity. }
    eapply bind_inr; [unfold lift; by rewrite Hff|].
    eapply bind_inr; [unfold NamedTemporaryFile; by rewrite Hs, Hmk|].
    eapply bind_inr; [unfold lift, input_format_of; by rewrite Hs|].
    eapply bind_inl, try_except_inl.
    + rewrite <- Eh. destruct h; exact Ht1.
    + eapply bind_inr; [reflexivity|].
      rewrite (from_file_run _ _ _ _ (lookup_insert_eq _ _ _)), H2.
      reflexivity.
  - eexists. unfold transcribe_audio.
    eapply bind_inr; [reflexivity|].
    eapply try_except_inl.
    2:{ eapply bind_inr; reflexivity. }
    eapply bind_inr; [unfold NamedTemporaryFile; by rewrite Hmk'|].
    eapply bind_inr;
      [unfold read_file; by rewrite lookup_insert_eq|].
    eapply bind_inr; [reflexivity|].
    eapply bind_inl. unfold lift. simpl. by rewrite H3.
Qed.

Lemma convert_trace d f fs r fs' t :
  convert_audio_to_wav env d f fs = (r, fs', t) ->
  Forall (convert_event d f) t.
Proof.
  unfold convert_audio_to_wav. intros H. run; simpl; repeat constructor.
Qed.

Lemma transcribe_trace d f l fs r fs' t :
  transcribe_audio env d f l fs = (r, fs', t) ->
  Forall transcribe_event t.
Proof.
  unfold transcribe_audio. intros H. run; simpl; repeat constructor.
Qed.

(** A call of [transcribe_audio] that returns hands back the object the
    service returned for the bytes it was given. *)
Lemma transcribe_returns_service_result d f l fs tr fs' t :
  transcribe_audio env d f l fs = (inr tr, fs', t) ->
  let file_name := if truthy f then f else PyStr "audio.wav" in
  transcriptions_create env file_name d "whisper-large-v3-turbo"
    "Please separate different speakers and label them." l "verbose_json"
    = inr tr /\
  EServiceCall file_name d l ∈ t.
Proof.
  intros H file_name. unfold transcribe_audio in H. run.
  all: match goal with
       | Hl : <[_ := _]> _ !! _ = Some _ |- _ =>
           rewrite lookup_insert_eq in Hl; simplify_eq
       end.
  all: simpl; split; [done|]; set_solver.
Qed.

Lemma decode_attempts_app t1 t2 :
  decode_attempts (t1 ++ t2) = decode_attempts t1 ++ decode_attempts t2.
Proof.
  induction t1 as [|ev t1 IH]; [reflexivity|].
  destruct ev; simpl; by rewrite ?IH.
Qed.

Lemma transcribe_never_decodes t :
  Forall transcribe_event t -> decode_attempts t = [].
Proof.
  induction 1 as [|ev t Hev _ IH]; [reflexivity|].
  destruct ev; simpl in *; done.
Qed.

(** The first decode attempt of a call gets the format selected from the
    filename. *)
Lemma convert_first_decode d f fs r fs' t fmt :
  convert_audio_to_wav env d f fs = (r, fs', t) ->
  head (decode_attempts t) = Some fmt ->
  exists input_format,
    input_format_of f = inr input_format /\ fmt = use_hint input_format.
Proof.
  unfold convert_audio_to_wav. intros H. run; simpl; intros [= <-]; eauto.
Qed.

(** *** [main] *)

Lemma has_key_false args k : has_key args k = false <-> args !! k = None.
Proof. unfold has_key. by destruct (args !! k). Qed.

(** What the [if]/[elif] statement that resolves the audio bytes does. *)
Lemma resolve_audio_data_inv args fs r fs' t :
  resolve_audio_data env args fs = (r, fs', t) ->
  fs' = fs /\
  ((exists v, args !! "audio_data" = Some v /\ t = [] /\
              r = match b64decode env v with
                  | inl e => inl e
                  | inr d => inr (inr (Some d))
                  end) \/
   (exists u, args !! "audio_data" = None /\ args !! "audio_url" = Some u /\
              t = [EHttpGet u] /\
              r = match requests_get env u with
                  | inl e => inl e
                  | inr resp =>
                      if status_code resp =? 200
                      then inr (inr (Some (content resp)))
                      else inr (inl (error_response 400
                             ("Failed to download audio from URL. Status code: "
                              +:+ pretty (status_code resp))))
                  end) \/
   (args !! "audio_data" = None /\ args !! "audio_url" = None /\ t = [] /\
    r = inr (inr None))).
Proof.
  unfold resolve_audio_data, has_key, args_item, bind, lift, emit, ret.
  destruct (args !! "audio_data") as [v|].
  - simpl. destruct (b64decode env v) eqn:E; intros [= ? ? ?]; subst;
      (split; [done|left; exists v; by rewrite E]).
  - destruct (args !! "audio_url") as [u|].
    + simpl. destruct (requests_get env u) as [e|resp] eqn:E.
      * intros [= ? ? ?]; subst. split; [done|right; left; exists u].
        by rewrite E.
      * destruct (status_code resp =? 200) eqn:Es; simpl;
          intros [= ? ? ?]; subst;
          (split; [done|right; left; exists u; by rewrite E, Es]).
    + intros [= ? ? ?]; subst. split; [done|right; right; done].
Qed.

(** Every run of [main] is one of six: the missing-source answer, the
    answer returned from the URL branch, something raised while resolving the
    input, in the normalizer or in the transcription client, or success. *)
Lemma main_inv args fs r fs' t :
  main env args fs = (r, fs', t) ->
  let filename := args_get args "filename" (PyStr "audio.wav") in
  let language := args_get args "language" (PyStr "en") in
  (args !! "audio_data" = None /\ args !! "audio_url" = None /\
   r = inr (error_response 400
              "Missing required parameter: either audio_data or audio_url") /\
   fs' = fs /\ t = []) \/
  (exists resp,
      resolve_audio_data env args fs = (inr (inl resp), fs, t) /\
      r = inr resp /\ fs' = fs) \/
  (exists x,
      resolve_audio_data env args fs = (inl x, fs, t) /\
      r = main_on_raise x /\ fs' = fs) \/
  (exists d t0 tc x,
      resolve_audio_data env args fs = (inr (inr d), fs, t0) /\
      convert_audio_to_wav env d filename fs = (inl x, fs', tc) /\
      r = main_on_raise x /\ t = t0 ++ tc) \/
  (exists d t0 tc wav tt x,
      resolve_audio_data env args fs = (inr (inr d), fs, t0) /\
      convert_audio_to_wav env d filename fs = (inr wav, fs, tc) /\
      transcribe_audio env wav filename language fs = (inl x, fs', tt) /\
      r = main_on_raise x /\ t = t0 ++ tc ++ tt) \/
  (exists d t0 tc wav tt tr,
      resolve_audio_data env args fs = (inr (inr d), fs, t0) /\
      convert_audio_to_wav env d filename fs = (inr wav, fs, tc) /\
      transcribe_audio env wav filename language fs = (inr tr, fs', tt) /\
      r = inr (success_response env tr) /\ fs' = fs /\ t = t0 ++ tc ++ tt).
Proof.
  intros H filename language. unfold main, main_body in H.
  fold filename language in H.
  destruct (negb (has_key args "audio_data") && negb (has_key args "audio_url"))
    eqn:Ek.
  { apply andb_prop in Ek as [E1%negb_true_iff%has_key_false
                               E2%negb_true_iff%has_key_false].
    left. unfold try_except, ret in H. simplify_eq. by repeat split. }
  clear Ek. right.
  destruct (resolve_audio_data env args fs) as [[rr fs1] t0] eqn:Er.
  pose proof (resolve_audio_data_inv _ _ _ _ _ Er) as [-> _].
  unfold try_except, bind in H. rewrite Er in H.
  destruct rr as [x|[resp|d]].
  - right. left. exists x. unfold ret in H.
    destruct x; simplify_eq; rewrite ?app_nil_r; by repeat split.
  - left. exists resp. unfold ret in H. simplify_eq.
    rewrite app_nil_r. by repeat split.
  - right. right.
    destruct (convert_audio_to_wav env d filename fs) as [[rc fs1] tc] eqn:Ec.
    destruct rc as [x|wav].
    { left. exists d, t0, tc, x. unfold ret in H.
      destruct x; simplify_eq; rewrite ?app_nil_r; by repeat split. }
    pose proof (convert_returns_store _ _ _ _ _ _ Ec) as ->.
    right.
    destruct (transcribe_audio env wav filename language fs)
      as [[rt fs2] tt] eqn:Et.
    destruct rt as [x|tr].
    + left. exists d, t0, tc, wav, tt, x. unfold ret in H.
      destruct x; simplify_eq; rewrite ?app_nil_r; by repeat split.
    + pose proof (transcribe_returns_store _ _ _ _ _ _ _ Et) as ->.
      right. exists d, t0, tc, wav, tt, tr. unfold ret in H.
      simplify_eq. rewrite !app_nil_r. by repeat split.
Qed.

(** Case analysis on what was raised, where a run of [main] is known to
    have returned. *)
Ltac split_raise :=
  repeat match goal with
    | H : _ = main_on_raise ?x |- _ => destruct x; simpl in H
    end.


(** C3: a request with neither [audio_data] nor [audio_url] is answered
    with status 400 and a message that begins with
    [Missing required parameter]; the run emits no event at all (so neither
    the normalizer nor the transcription client is called) and leaves the
    file store alone. *)
Theorem missing_source_is_rejected
    (args : gmap string pyval) (fs : gmap nat tmpfile) :
  args !! "audio_data" = None ->
  args !! "audio_url" = None ->
  exists msg,
    main env args fs = (inr (Response 400 [("error", BStr msg)]), fs, []) /\
    String.prefix "Missing required parameter" msg = true.
Proof.
  intros Hd Hu. eexists. split.
  - unfold main, main_body, try_except, has_key. rewrite Hd, Hu. reflexivity.
  - reflexivity.
Qed.

(** C4: on the [audio_url] path, a GET that answers with a status other
    than 200 makes [main] return status 400 with a message that ends with
    that status code in decimal, and nothing but the GET happens; and
    whenever the normalizer is called on this path, the GET status was 200. *)
Theorem url_bad_status_is_rejected
    (args : gmap string pyval) (fs : gmap nat tmpfile)
    (u : pyval) (re : http_response) :
  args !! "audio_data" = None ->
  args !! "audio_url" = Some u ->
  requests_get env u = inr re ->
  (status_code re <> 200 ->
   main env args fs
   = (inr (Response 400
             [("error",
               BStr ("Failed to download audio from URL. Status code: "
                     +:+ pretty (status_code re)))]),
      fs, [EHttpGet u])) /\
  (forall r fs' t d f,
      main env args fs = (r, fs', t) ->
      ECallConvert d f ∈ t -> status_code re = 200).
Proof.
  intros Hd Hu Hget. split.
  - intros Hs%Z.eqb_neq.
    unfold main, main_body, resolve_audio_data, try_except, has_key, args_item,
      bind, emit, lift, ret.
    rewrite Hd, Hu. simpl. rewrite Hget, Hs. reflexivity.
  - intros r fs' t d f Hm Hin.
    destruct (Z.eqb_spec (status_code re) 200) as [|Hs%Z.eqb_neq]; [done|].
    exfalso. revert Hm.
    unfold main, main_body, resolve_audio_data, try_except, has_key, args_item,
      bind, emit, lift, ret.
    rewrite Hd, Hu. simpl. rewrite Hget, Hs. simpl.
    intros [= ? ? ?]; subst.
    apply list_elem_of_singleton in Hin. discriminate Hin.
Qed.

(** C6: when [main] answers with status 200, the transcription service was
    called during the run and returned some object [tr];
    [transcription_text] is [tr.text] and [full_transcription] is [tr]
    itself. *)
Theorem success_passes_service_result_through
    (args : gmap string pyval) (fs fs' : gmap nat tmpfile)
    (resp : response Transcription) (t : list event) :
  main env args fs = (inr resp, fs', t) ->
  statusCode resp = 200 ->
  exists tr file_name wav language,
    EServiceCall file_name wav language ∈ t /\
    transcriptions_create env file_name wav "whisper-large-v3-turbo"
      "Please separate different speakers and label them." language
      "verbose_json" = inr tr /\
    body resp = [("transcription_text", BStr (text env tr));
                 ("full_transcription", BObj tr)].
Proof.
  intros Hm Hs.
  apply main_inv in Hm
    as [(_ & _ & Hr & _) | [(resp' & Hr & Hr' & _) | [(e & _ & Hr & _) |
       [(? & ? & ? & e & _ & _ & Hr & _) |
       [(? & ? & ? & ? & ? & e & _ & _ & _ & Hr & _) |
        (d & t0 & tc & wav & tt & tr & _ & _ & Ht & Hr & _ & ->)]]]]];
    split_raise; simplify_eq; try discriminate Hs.
  - apply resolve_audio_data_inv in Hr
      as [_ [(v & _ & _ & Hv) | [(u & _ & _ & _ & Hu) | (_ & _ & _ & [=])]]].
    + destruct (b64decode env v); discriminate Hv.
    + destruct (requests_get env u) as [|re]; [discriminate Hu|].
      destruct (status_code re =? 200); simplify_eq.
  - apply transcribe_returns_service_result in Ht as [Hc Hin].
    eexists tr, _, wav, _. split; [|split; [exact Hc|reflexivity]].
    rewrite !elem_of_app. auto.
Qed.

(** C10: when [main] answers with status 400, the file store is as it was
    and the run emitted nothing, or only the GET of the URL: no temporary
    file was created, neither the normalizer nor the transcription service
    was called. *)
Theorem validation_failure_touches_nothing
    (args : gmap string pyval) (fs fs' : gmap nat tmpfile)
    (resp : response Transcription) (t : list event) :
  main env args fs = (inr resp, fs', t) ->
  statusCode resp = 400 ->
  fs' = fs /\
  (t = [] \/ exists u, t = [EHttpGet u]) /\
  forallb (fun ev => negb (is_side_effect_of_pipeline ev)) t = true.
Proof.
  intros Hm Hs.
  apply main_inv in Hm
    as [(_ & _ & Hr & -> & ->) | [(resp' & Hr & Hr' & ->) | [(e & _ & Hr & _) |
       [(? & ? & ? & e & _ & _ & Hr & _) |
       [(? & ? & ? & ? & ? & e & _ & _ & _ & Hr & _) |
        (d & t0 & tc & wav & tt & tr & _ & _ & Ht & Hr & _ & ->)]]]]];
    split_raise; simplify_eq; try discriminate Hs.
  - auto.
  - apply resolve_audio_data_inv in Hr
      as [_ [(v & _ & _ & Hv) | [(u & _ & _ & -> & Hu) | (_ & _ & _ & [=])]]].
    + destruct (b64decode env v); discriminate Hv.
    + split; [done|]. split; [eauto|done].
Qed.

(** When the input resolved to bytes and the normalizer raises, [main]
    answers 500 with the text of that exception. *)
Lemma main_convert_raises args fs b t0 (e : exn) fs1 tc :
  resolve_audio_data env args fs = (inr (inr (Some b)), fs, t0) ->
  convert_audio_to_wav env (Some b)
    (args_get args "filename" (PyStr "audio.wav")) fs = (inl e, fs1, tc) ->
  main env args fs = (inr (error_response 500 (exn_str e)), fs1, t0 ++ tc).
Proof.
  intros Hr Hc. unfold main, main_body.
  assert (negb (has_key args "audio_data") && negb (has_key args "audio_url")
          = false) as ->.
  { apply resolve_audio_data_inv in Hr
      as [_ [(v & Hk & _) | [(u & _ & Hk & _) | (_ & _ & _ & [=])]]];
      unfold has_key; rewrite Hk; [reflexivity|apply andb_false_r]. }
  unfold try_except, bind, ret. rewrite Hr, Hc. by rewrite app_nil_r.
Qed.

(** C5: when the filename selects a format hint and the hinted decode
    fails, the file is decoded a second and last time with no hint; when
    that fails too, [convert_audio_to_wav] raises that second exception, and
    [main], on a request that resolved to these bytes under this filename,
    answers 500 with its text. *)
Theorem hinted_decode_failure_retries_once
    (b : bytes) (s ffmpeg fmt : string) (fs : gmap nat tmpfile) (e1 : exn) :
  truthy (PyStr s) = true ->
  get_ffmpeg_exe env = inr ffmpeg ->
  mkstemp_error env s = None ->
  use_hint (Some (remove_dots (lower (splitext_ext s)))) = Some fmt ->
  from_file_decode env (TmpFile s b) (Some fmt) = inl e1 ->
  exists r fs' t,
    convert_audio_to_wav env (Some b) (PyStr s) fs = (r, fs', t) /\
    decode_attempts t = [Some fmt; None] /\
    forall e2 : exn,
      from_file_decode env (TmpFile s b) None = inl e2 ->
      r = inl e2 /\
      forall args t0,
        args_get args "filename" (PyStr "audio.wav") = PyStr s ->
        resolve_audio_data env args fs = (inr (inr (Some b)), fs, t0) ->
        main env args fs
        = (inr (Response 500 [("error", BStr (exn_str e2))]), fs', t0 ++ t).
Proof.
  intros Hs Hff Hmk Hh H1.
  destruct (convert_audio_to_wav env (Some b) (PyStr s) fs) as [[r fs'] t]
    eqn:Hc.
  exists r, fs', t. split; [reflexivity|].
  assert (decode_attempts t = [Some fmt; None] /\
          forall e2 : exn, from_file_decode env (TmpFile s b) None = inl e2 ->
                     r = inl e2) as [Hd Hr].
  { pose proof Hc as Hrun. unfold convert_audio_to_wav in Hrun.
    pose proof Hs as Ht.
    assert (input_format_of (PyStr s)
            = inr (Some (remove_dots (lower (splitext_ext s))))) as Hif.
    { unfold input_format_of. by rewrite Ht. }
    rewrite Hif, Ht, Hff in Hrun. clear Hif Ht Hff.
    run;
      repeat match goal with
        | H : use_hint ?a = _, H' : use_hint ?a = _ |- _ =>
            rewrite H in H'; simplify_eq
        | H : context [<[_ := _]> _ !! _] |- _ =>
            rewrite lookup_insert_eq in H
        | H : forall _, PyStr _ = PyStr _ -> _ |- _ =>
            specialize (H _ eq_refl); rewrite Hmk in H; discriminate H
        end; simplify_eq; try congruence.
    all: simpl; split; [reflexivity|]; intros; congruence. }
  split; [exact Hd|]. intros e2 H2. specialize (Hr e2 H2) as ->.
  split; [reflexivity|]. intros args t0 Hf Hres.
  eapply main_convert_raises; [exact Hres|]. by rewrite Hf.
Qed.

(** Neither component performs an HTTP GET, and only the normalizer emits
    its own call event. *)
Lemma convert_event_not_get d f ev : convert_event d f ev -> is_http_get ev = false.
Proof. by destruct ev. Qed.

Lemma transcribe_event_not_get ev : transcribe_event ev -> is_http_get ev = false.
Proof. by destruct ev. Qed.

Lemma convert_call_in_trace d f fs r fs' t d' f' :
  convert_audio_to_wav env d f fs = (r, fs', t) ->
  ECallConvert d' f' ∈ t -> d' = d /\ f' = f.
Proof.
  intros Hc%convert_trace Hin.
  rewrite Forall_forall in Hc. exact (Hc _ Hin).
Qed.

Lemma transcribe_no_convert_call d f l fs r fs' t d' f' :
  transcribe_audio env d f l fs = (r, fs', t) ->
  ECallConvert d' f' ∉ t.
Proof.
  intros Ht%transcribe_trace Hin.
  rewrite Forall_forall in Ht. exact (Ht _ Hin).
Qed.

(** C8: when the request has both [audio_data] and [audio_url], the run
    performs no HTTP GET, and every call of the normalizer receives the
    bytes that [base64.b64decode] returned for [audio_data]. *)
Theorem audio_data_takes_precedence
    (args : gmap string pyval) (fs fs' : gmap nat tmpfile) (v u : pyval)
    (r : raised + response Transcription) (t : list event) :
  args !! "audio_data" = Some v ->
  args !! "audio_url" = Some u ->
  main env args fs = (r, fs', t) ->
  (forall ev, ev ∈ t -> is_http_get ev = false) /\
  (forall d f, ECallConvert d f ∈ t ->
               exists b, b64decode env v = inr b /\ d = Some b).
Proof.
  intros Hd Hu Hm.
  assert (forall rr t0,
             resolve_audio_data env args fs = (rr, fs, t0) ->
             t0 = [] /\
             forall d, rr = inr (inr d) ->
                       exists b, b64decode env v = inr b /\ d = Some b)
    as Hres.
  { intros rr t0 Hr. apply resolve_audio_data_inv in Hr
      as [_ [(v' & Hk & -> & ->) | [(? & Hk & _) | (Hk & _)]]];
      rewrite Hd in Hk; simplify_eq.
    split; [done|]. intros d Hrr.
    destruct (b64decode env v') as [|b]; simplify_eq. eauto. }
  apply main_inv in Hm
    as [(Hk & _) | [(resp & Hr & _) | [(e & Hr & _) |
       [(d & t0 & tc & e & Hr & Hc & _ & ->) |
       [(d & t0 & tc & wav & tt & e & Hr & Hc & Ht & _ & ->) |
        (d & t0 & tc & wav & tt & tr & Hr & Hc & Ht & _ & _ & ->)]]]]].
  - rewrite Hd in Hk. discriminate Hk.
  - apply Hres in Hr as [-> _]. split; [intros ev Hin|intros d f Hin]; by apply elem_of_nil in Hin.
  - apply Hres in Hr as [-> _]. split; [intros ev Hin|intros d f Hin]; by apply elem_of_nil in Hin.
  - apply Hres in Hr as [-> Hb]. specialize (Hb d eq_refl). simpl. split.
    + intros ev Hin. apply convert_trace in Hc. rewrite Forall_forall in Hc.
      eapply convert_event_not_get, Hc, Hin.
    + intros d' f Hin. by apply (convert_call_in_trace _ _ _ _ _ _ _ _ Hc) in Hin
        as [-> _].
  - apply Hres in Hr as [-> Hb]. specialize (Hb d eq_refl). simpl. split.
    + intros ev [Hin|Hin]%elem_of_app.
      * apply convert_trace in Hc. rewrite Forall_forall in Hc.
        eapply convert_event_not_get, Hc, Hin.
      * apply transcribe_trace in Ht. rewrite Forall_forall in Ht.
        eapply transcribe_event_not_get, Ht, Hin.
    + intros d' f [Hin|Hin]%elem_of_app.
      * by apply (convert_call_in_trace _ _ _ _ _ _ _ _ Hc) in Hin as [-> _].
      * by apply (transcribe_no_convert_call _ _ _ _ _ _ _ _ _ Ht) in Hin.
  - apply Hres in Hr as [-> Hb]. specialize (Hb d eq_refl). simpl. split.
    + intros ev [Hin|Hin]%elem_of_app.
      * apply convert_trace in Hc. rewrite Forall_forall in Hc.
        eapply convert_event_not_get, Hc, Hin.
      * apply transcribe_trace in Ht. rewrite Forall_forall in Ht.
        eapply transcribe_event_not_get, Ht, Hin.
    + intros d' f [Hin|Hin]%elem_of_app.
      * by apply (convert_call_in_trace _ _ _ _ _ _ _ _ Hc) in Hin as [-> _].
      * by apply (transcribe_no_convert_call _ _ _ _ _ _ _ _ _ Ht) in Hin.
Qed.

Lemma resolve_trace args fs rr fs' t0 :
  resolve_audio_data env args fs = (rr, fs', t0) ->
  t0 = [] \/ exists u, t0 = [EHttpGet u].
Proof.
  intros Hr. apply resolve_audio_data_inv in Hr
    as [_ [(? & _ & -> & _) | [(u & _ & _ & -> & _) | (_ & _ & -> & _)]]];
    eauto.
Qed.

(** C9: for a request without a [filename] key, every call of the
    normalizer gets the filename [audio.wav], and the first decode attempt of
    the run, when there is one, is made with the format hint [wav]. *)
Theorem default_filename_selects_wav_hint
    (args : gmap string pyval) (fs fs' : gmap nat tmpfile)
    (r : raised + response Transcription) (t : list event) :
  args !! "filename" = None ->
  main env args fs = (r, fs', t) ->
  (forall d f, ECallConvert d f ∈ t -> f = PyStr "audio.wav") /\
  (forall fmt, head (decode_attempts t) = Some fmt -> fmt = Some "wav").
Proof.
  intros Hf Hm.
  assert (args_get args "filename" (PyStr "audio.wav") = PyStr "audio.wav")
    as Hname by (unfold args_get; by rewrite Hf).
  assert (forall d fs1 rc fs2 tc tt,
             convert_audio_to_wav env d (PyStr "audio.wav") fs1 = (rc, fs2, tc) ->
             Forall transcribe_event tt ->
             (forall d' f, ECallConvert d' f ∈ tc ++ tt -> f = PyStr "audio.wav") /\
             (forall fmt, head (decode_attempts (tc ++ tt)) = Some fmt ->
                          fmt = Some "wav")) as Hpipe.
  { intros d fs1 rc fs2 tc tt Hc Htt. split.
    - intros d' f [Hin|Hin]%elem_of_app.
      + by apply (convert_call_in_trace _ _ _ _ _ _ _ _ Hc) in Hin as [_ ->].
      + rewrite Forall_forall in Htt. by apply Htt in Hin.
    - intros fmt. rewrite decode_attempts_app, (transcribe_never_decodes tt Htt),
        app_nil_r.
      intros Hh. apply (convert_first_decode _ _ _ _ _ _ _ Hc) in Hh
        as (x & Hx & ->).
      by injection Hx as <-. }
  apply main_inv in Hm
    as [(_ & _ & _ & _ & ->) | [(resp & Hr & _) | [(e & Hr & _) |
       [(d & t0 & tc & e & Hr & Hc & _ & ->) |
       [(d & t0 & tc & wav & tt & e & Hr & Hc & Ht & _ & ->) |
        (d & t0 & tc & wav & tt & tr & Hr & Hc & Ht & _ & _ & ->)]]]]].
  - split; [intros d f Hin; by apply elem_of_nil in Hin|done].
  - apply resolve_trace in Hr as [->|[u ->]];
      (split; [intros d f Hin|done]).
    + by apply elem_of_nil in Hin.
    + apply list_elem_of_singleton in Hin. discriminate Hin.
  - apply resolve_trace in Hr as [->|[u ->]];
      (split; [intros d f Hin|done]).
    + by apply elem_of_nil in Hin.
    + apply list_elem_of_singleton in Hin. discriminate Hin.
  - rewrite Hname in Hc.
    destruct (Hpipe _ _ _ _ _ [] Hc (Forall_nil_2 _)) as [H1 H2].
    rewrite app_nil_r in H1, H2.
    apply resolve_trace in Hr as [->|[u ->]]; simpl; split; try done.
    intros d' f [Hin|Hin]%elem_of_cons; [discriminate Hin|eauto].
  - rewrite Hname in Hc.
    destruct (Hpipe _ _ _ _ _ tt Hc (transcribe_trace _ _ _ _ _ _ _ Ht))
      as [H1 H2].
    apply resolve_trace in Hr as [->|[u ->]]; simpl; split; try done.
    intros d' f [Hin|Hin]%elem_of_cons; [discriminate Hin|eauto].
  - rewrite Hname in Hc.
    destruct (Hpipe _ _ _ _ _ tt Hc (transcribe_trace _ _ _ _ _ _ _ Ht))
      as [H1 H2].
    apply resolve_trace in Hr as [->|[u ->]]; simpl; split; try done.
    intros d' f [Hin|Hin]%elem_of_cons; [discriminate Hin|eauto].
Qed.

(** *** Further properties of [convert_audio_to_wav] *)

(** X1: the bytes [convert_audio_to_wav] returns are the WAV export, with
    codec [pcm_s16le], of the decoded sound after [set_frame_rate(16000)],
    [set_channels(1)] and [set_sample_width(2)], applied in this order; the
    sound was decoded from the bytes given, with the format selected from
    the filename or, after a failed first attempt, with none. *)
Theorem convert_returns_export_of_normalized_sound
    (d : option bytes) (f : pyval) (fs fs' : gmap nat tmpfile)
    (w : bytes) (t : list event) :
  convert_audio_to_wav env d f fs = (inr w, fs', t) ->
  exists b s fmt s0 s1 s2 s3,
    d = Some b /\
    (if truthy f then f else PyStr ".audio") = PyStr s /\
    (fmt = None \/
     exists x, input_format_of f = inr x /\ fmt = use_hint x) /\
    from_file_decode env (TmpFile s b) fmt = inr s0 /\
    set_frame_rate env s0 16000 = inr s1 /\
    set_channels env s1 1 = inr s2 /\
    set_sample_width env s2 2 = inr s3 /\
    export env s3 "wav" "pcm_s16le" = inr w.
Proof.
  unfold convert_audio_to_wav. intros H. run;
    repeat match goal with
      | H : context [<[_ := _]> _ !! _] |- _ => rewrite lookup_insert_eq in H
      end.
  all: eexists _, _, _, _, _, _, _;
    (split; [reflexivity|]); (split; [eassumption|]).
  all: split; [|repeat split; symmetry; eassumption].
  all: first [ by left
             | right; eexists; split; [symmetry; eassumption|by symmetry] ].
Qed.

Lemma convert_store_cases d f fs r fs' t :
  convert_audio_to_wav env d f fs = (r, fs', t) ->
  fs' = fs \/ exists x, fs' = <[fresh (dom fs) := x]> fs.
Proof.
  unfold convert_audio_to_wav. intros H. run;
    rewrite ?create_then_delete; eauto.
Qed.

Lemma transcribe_store_cases d f l fs r fs' t :
  transcribe_audio env d f l fs = (r, fs', t) ->
  fs' = fs \/ exists x, fs' = <[fresh (dom fs) := x]> fs.
Proof.
  unfold transcribe_audio. intros H. run;
    rewrite ?create_then_delete; eauto.
Qed.

Lemma store_cases_keep_files (fs fs' : gmap nat tmpfile) q f0 :
  fs' = fs \/ (exists x, fs' = <[fresh (dom fs) := x]> fs) ->
  fs !! q = Some f0 -> fs' !! q = Some f0.
Proof.
  intros [->|[x ->]] Hq; [exact Hq|].
  rewrite lookup_insert_ne; [exact Hq|].
  intros <-. by rewrite fresh_path_unused in Hq.
Qed.

(** X2: when [convert_audio_to_wav] returns, the file store is exactly as
    it was before the call: the file the call created (and no other) was
    created and then unlinked. *)
Theorem convert_return_leaves_no_file
    (d : option bytes) (f : pyval) (fs fs' : gmap nat tmpfile)
    (w : bytes) (t : list event) :
  convert_audio_to_wav env d f fs = (inr w, fs', t) ->
  fs' = fs /\
  exists s, ETmpCreate (fresh (dom fs)) s ∈ t /\
            EUnlink (fresh (dom fs)) ∈ t /\
            forall p, EUnlink p ∈ t -> p = fresh (dom fs).
Proof.
  intros H. split; [exact (convert_returns_store _ _ _ _ _ _ H)|].
  unfold convert_audio_to_wav in H. run.
  all: eexists; simpl; rewrite !elem_of_cons.
  all: split; [eauto 10|]; split; [eauto 10|].
  all: intros p Hp; repeat (apply elem_of_cons in Hp as [Hp|Hp];
                            [by simplify_eq|]); by apply elem_of_nil in Hp.
Qed.

(** X3: when [transcribe_audio] returns, the file store is exactly as it
    was before the call, and the object returned is the one the service gave
    for the bytes passed in, under the name [filename] (or [audio.wav] when
    [filename] is falsy) and the language passed in. *)
Theorem transcribe_return_leaves_no_file
    (d : bytes) (f l : pyval) (fs fs' : gmap nat tmpfile)
    (tr : Transcription) (t : list event) :
  transcribe_audio env d f l fs = (inr tr, fs', t) ->
  fs' = fs /\
  transcriptions_create env (if truthy f then f else PyStr "audio.wav") d
    "whisper-large-v3-turbo"
    "Please separate different speakers and label them." l "verbose_json"
  = inr tr.
Proof.
  intros H. split; [exact (transcribe_returns_store _ _ _ _ _ _ _ H)|].
  exact (proj1 (transcribe_returns_service_result _ _ _ _ _ _ _ H)).
Qed.

Lemma count_events_app p t1 t2 :
  count_events p (t1 ++ t2) = (count_events p t1 + count_events p t2)%nat.
Proof. unfold count_events. by rewrite List.filter_app, length_app. Qed.

Lemma convert_counts d f fs r fs' t :
  convert_audio_to_wav env d f fs = (r, fs', t) ->
  count_events is_call_convert t = 1%nat /\
  count_events is_call_transcribe t = 0%nat /\
  count_events is_service_call t = 0%nat /\
  count_events is_http_get t = 0%nat /\
  (length (decode_attempts t) <= 2)%nat.
Proof.
  unfold convert_audio_to_wav. intros H. run; cbn; repeat split; lia.
Qed.

Lemma transcribe_counts d f l fs r fs' t :
  transcribe_audio env d f l fs = (r, fs', t) ->
  count_events is_call_convert t = 0%nat /\
  count_events is_call_transcribe t = 1%nat /\
  (count_events is_service_call t <= 1)%nat /\
  count_events is_http_get t = 0%nat /\
  length (decode_attempts t) = 0%nat.
Proof.
  unfold transcribe_audio. intros H. run; cbn; repeat split; lia.
Qed.

Lemma transcribe_returns_after_one_call d f l fs tr fs' t :
  transcribe_audio env d f l fs = (inr tr, fs', t) ->
  count_events is_service_call t = 1%nat.
Proof.
  unfold transcribe_audio. intros H. run; reflexivity.
Qed.

Lemma resolve_counts args fs rr fs' t0 :
  resolve_audio_data env args fs = (rr, fs', t0) ->
  count_events is_call_convert t0 = 0%nat /\
  count_events is_call_transcribe t0 = 0%nat /\
  count_events is_service_call t0 = 0%nat /\
  (count_events is_http_get t0 <= 1)%nat /\
  length (decode_attempts t0) = 0%nat.
Proof.
  intros [->|[u ->]]%resolve_trace; cbn; repeat split; lia.
Qed.

(** *** Further properties of [main] *)

(** X4: whatever the outcome, a run of [main] never removes or changes a
    file that was in the store before it started. *)
Theorem main_keeps_existing_files
    (args : gmap string pyval) (fs fs' : gmap nat tmpfile)
    (r : raised + response Transcription) (t : list event)
    (q : nat) (f0 : tmpfile) :
  main env args fs = (r, fs', t) ->
  fs !! q = Some f0 ->
  fs' !! q = Some f0.
Proof.
  intros Hm Hq. apply (store_cases_keep_files fs fs' q f0); [|exact Hq].
  apply main_inv in Hm
    as [(_ & _ & _ & -> & _) | [(resp & _ & _ & ->) | [(e & _ & _ & ->) |
       [(d & t0 & tc & e & _ & Hc & _) |
       [(d & t0 & tc & wav & tt & e & _ & _ & Ht & _) |
        (d & t0 & tc & wav & tt & tr & _ & _ & _ & _ & -> & _)]]]]];
    auto.
  - exact (convert_store_cases _ _ _ _ _ _ Hc).
  - exact (transcribe_store_cases _ _ _ _ _ _ _ Ht).
Qed.

(** X5: a run of [main] that answers 200 leaves the file store exactly as
    it found it (both temporary files of the run are gone), and it called
    the normalizer, the transcription client and the transcription service
    exactly once each. *)
Theorem success_leaves_no_file
    (args : gmap string pyval) (fs fs' : gmap nat tmpfile)
    (resp : response Transcription) (t : list event) :
  main env args fs = (inr resp, fs', t) ->
  statusCode resp = 200 ->
  fs' = fs /\
  count_events is_call_convert t = 1%nat /\
  count_events is_call_transcribe t = 1%nat /\
  count_events is_service_call t = 1%nat.
Proof.
  intros Hm Hs.
  apply main_inv in Hm
    as [(_ & _ & Hr & _) | [(resp' & Hr & Hr' & _) | [(e & _ & Hr & _) |
       [(? & ? & ? & e & _ & _ & Hr & _) |
       [(? & ? & ? & ? & ? & e & _ & _ & _ & Hr & _) |
        (d & t0 & tc & wav & tt & tr & Hres & Hc & Ht & Hr & -> & ->)]]]]];
    split_raise; simplify_eq; try discriminate Hs.
  - apply resolve_audio_data_inv in Hr
      as [_ [(v & _ & _ & Hv) | [(u & _ & _ & _ & Hu) | (_ & _ & _ & [=])]]].
    + destruct (b64decode env v); discriminate Hv.
    + destruct (requests_get env u) as [|re]; [discriminate Hu|].
      destruct (status_code re =? 200); simplify_eq.
  - split; [reflexivity|].
    pose proof (transcribe_returns_after_one_call _ _ _ _ _ _ _ Ht) as Hone.
    apply resolve_counts in Hres as (R1 & R2 & R3 & _).
    apply convert_counts in Hc as (C1 & C2 & C3 & _).
    apply transcribe_counts in Ht as (T1 & T2 & _).
    rewrite !count_events_app. lia.
Qed.

(** X6: a run of [main] retries nothing: it performs at most one GET, calls
    the normalizer and the transcription client at most once each, calls the
    transcription service at most once, and makes at most two decode
    attempts. *)
Theorem main_retries_nothing
    (args : gmap string pyval) (fs fs' : gmap nat tmpfile)
    (r : raised + response Transcription) (t : list event) :
  main env args fs = (r, fs', t) ->
  (count_events is_http_get t <= 1)%nat /\
  (count_events is_call_convert t <= 1)%nat /\
  (count_events is_call_transcribe t <= 1)%nat /\
  (count_events is_service_call t <= 1)%nat /\
  (length (decode_attempts t) <= 2)%nat.
Proof.
  intros Hm.
  apply main_inv in Hm
    as [(_ & _ & _ & _ & ->) | [(resp & Hres & _) | [(e & Hres & _) |
       [(d & t0 & tc & e & Hres & Hc & _ & ->) |
       [(d & t0 & tc & wav & tt & e & Hres & Hc & Ht & _ & ->) |
        (d & t0 & tc & wav & tt & tr & Hres & Hc & Ht & _ & _ & ->)]]]]].
  - cbn. lia.
  - apply resolve_counts in Hres. lia.
  - apply resolve_counts in Hres. lia.
  - apply resolve_counts in Hres. apply convert_counts in Hc.
    rewrite !count_events_app, decode_attempts_app, length_app. lia.
  - apply resolve_counts in Hres. apply convert_counts in Hc.
    apply transcribe_counts in Ht.
    rewrite !count_events_app, !decode_attempts_app, !length_app. lia.
  - apply resolve_counts in Hres. apply convert_counts in Hc.
    apply transcribe_counts in Ht.
    rewrite !count_events_app, !decode_attempts_app, !length_app. lia.
Qed.



Lemma with_trace {A} (x : (raised + A) * gmap nat tmpfile * list event)
    r fs' t t' :
  x = (r, fs', t) -> t = t' -> x = (r, fs', t').
Proof. by intros -> ->. Qed.

Lemma first_attempt_eq p x :
  match use_hint x with
  | Some f => from_file env p (Some f)
  | None => from_file env p None
  end = from_file env p (use_hint x).
Proof. by destruct (use_hint x). Qed.

(** The run of [convert_audio_to_wav] up to the decoded sound, and from
    there on. *)
Lemma convert_with_sound b f s ffmpeg x s0 s1 s2 s3 w fs tdec :
  get_ffmpeg_exe env = inr ffmpeg ->
  (if truthy f then f else PyStr ".audio") = PyStr s ->
  mkstemp_error env s = None ->
  input_format_of f = inr x ->
  try_except
    (match use_hint x with
     | Some h => from_file env (fresh (dom fs)) (Some h)
     | None => from_file env (fresh (dom fs)) None
     end)
    (fun e =>
       print ("Error loading audio: " +:+ exn_str e) ;;;
       from_file env (fresh (dom fs)) None)
    (<[fresh (dom fs) := TmpFile s b]> fs)
  = (inr s0, <[fresh (dom fs) := TmpFile s b]> fs, tdec) ->
  set_frame_rate env s0 16000 = inr s1 ->
  set_channels env s1 1 = inr s2 ->
  set_sample_width env s2 2 = inr s3 ->
  export env s3 "wav" "pcm_s16le" = inr w ->
  convert_audio_to_wav env (Some b) f fs
  = (inr w, fs,
     ECallConvert (Some b) f :: ETmpCreate (fresh (dom fs)) s
       :: tdec ++ [EUnlink (fresh (dom fs))]).
Proof.
  intros Hff Hsuf Hmk Hif Hdec H1 H2 H3 H4.
  enough (exists t, convert_audio_to_wav env (Some b) f fs = (inr w, fs, t) /\
                    t = ECallConvert (Some b) f :: ETmpCreate (fresh (dom fs)) s
                          :: tdec ++ [EUnlink (fresh (dom fs))])
    as (t & Ht & ->) by exact Ht.
  eexists. split.
  - unfold convert_audio_to_wav.
    eapply bind_inr; [reflexivity|].
    eapply try_except_inr.
    eapply bind_inr; [unfold lift; by rewrite Hff|].
    eapply bind_inr; [unfold NamedTemporaryFile; by rewrite Hsuf, Hmk|].
    eapply bind_inr; [unfold lift; by rewrite Hif|].
    eapply bind_inr; [exact Hdec|].
    eapply bind_inr; [unfold lift; by rewrite H1|].
    eapply bind_inr; [unfold lift; by rewrite H2|].
    eapply bind_inr; [unfold lift; by rewrite H3|].
    eapply bind_inr; [unfold lift; by rewrite H4|].
    eapply bind_inr; [unfold unlink; by rewrite lookup_insert_eq|].
    rewrite create_then_delete. reflexivity.
  - reflexivity.
Qed.

(** X9: the retry rescues the call: when the hinted decode fails but the
    unhinted decode of the same file succeeds (and the setters and the
    export succeed), [convert_audio_to_wav] returns the exported bytes; the
    first failure is only printed. *)
Theorem failed_hint_is_rescued_by_retry
    (b : bytes) (f : pyval) (s ffmpeg fmt : string) (x : option string)
    (e1 : exn) (s0 s1 s2 s3 : Sound) (w : bytes) (fs : gmap nat tmpfile) :
  get_ffmpeg_exe env = inr ffmpeg ->
  (if truthy f then f else PyStr ".audio") = PyStr s ->
  mkstemp_error env s = None ->
  input_format_of f = inr x ->
  use_hint x = Some fmt ->
  from_file_decode env (TmpFile s b) (Some fmt) = inl e1 ->
  from_file_decode env (TmpFile s b) None = inr s0 ->
  set_frame_rate env s0 16000 = inr s1 ->
  set_channels env s1 1 = inr s2 ->
  set_sample_width env s2 2 = inr s3 ->
  export env s3 "wav" "pcm_s16le" = inr w ->
  convert_audio_to_wav env (Some b) f fs
  = (inr w, fs,
     [ECallConvert (Some b) f;
      ETmpCreate (fresh (dom fs)) s;
      EFromFile (fresh (dom fs)) (Some fmt);
      EPrint ("Error loading audio: " +:+ exn_str e1);
      EFromFile (fresh (dom fs)) None;
      EUnlink (fresh (dom fs))]).
Proof.
  intros Hff Hsuf Hmk Hif Hh Hd1 Hd2 H1 H2 H3 H4.
  apply (convert_with_sound b f s ffmpeg x s0 s1 s2 s3 w fs
           [EFromFile (fresh (dom fs)) (Some fmt);
            EPrint ("Error loading audio: " +:+ exn_str e1);
            EFromFile (fresh (dom fs)) None]); try assumption.
  rewrite Hh.
  eapply with_trace.
  - eapply try_except_inl.
    + by rewrite (from_file_run _ _ _ _ (lookup_insert_eq _ _ _)), Hd1.
    + eapply bind_inr; [reflexivity|].
      by rewrite (from_file_run _ _ _ _ (lookup_insert_eq _ _ _)), Hd2.
  - reflexivity.
Qed.

(** X10: the retry is made even when the first attempt used no hint: for a
    filename whose extension is not a known format, a failed decode is
    followed by a second, identical attempt, and the call then raises the
    decoder's exception after printing it twice. *)
Theorem unhinted_failure_is_retried_too
    (b : bytes) (f : pyval) (s ffmpeg : string) (x : option string)
    (e : exn) (fs : gmap nat tmpfile) :
  get_ffmpeg_exe env = inr ffmpeg ->
  (if truthy f then f else PyStr ".audio") = PyStr s ->
  mkstemp_error env s = None ->
  input_format_of f = inr x ->
  use_hint x = None ->
  from_file_decode env (TmpFile s b) None = inl e ->
  exists fs',
    convert_audio_to_wav env (Some b) f fs
    = (inl e, fs',
       [ECallConvert (Some b) f;
        ETmpCreate (fresh (dom fs)) s;
        EFromFile (fresh (dom fs)) None;
        EPrint ("Error loading audio: " +:+ exn_str e);
        EFromFile (fresh (dom fs)) None;
        EPrint ("Error converting audio: " +:+ exn_str e)]).
Proof.
  intros Hff Hsuf Hmk Hif Hh Hd. eexists. eapply with_trace.
  - unfold convert_audio_to_wav.
    eapply bind_inr; [reflexivity|].
    eapply try_except_inl.
    2:{ eapply bind_inr; reflexivity. }
    eapply bind_inr; [unfold lift; by rewrite Hff|].
    eapply bind_inr; [unfold NamedTemporaryFile; by rewrite Hsuf, Hmk|].
    eapply bind_inr; [unfold lift; by rewrite Hif|].
    eapply bind_inl, try_except_inl.
    + rewrite Hh.
      by rewrite (from_file_run _ _ _ _ (lookup_insert_eq _ _ _)), Hd.
    + eapply bind_inr; [reflexivity|].
      by rewrite (from_file_run _ _ _ _ (lookup_insert_eq _ _ _)), Hd.
  - reflexivity.
Qed.

(** *** Further properties of [transcribe_audio] *)

Lemma transcribe_run d f l fs rs :
  mkstemp_error env ".wav" = None ->
  transcriptions_create env (if truthy f then f else PyStr "audio.wav") d
    "whisper-large-v3-turbo"
    "Please separate different speakers and label them." l "verbose_json"
  = rs ->
  transcribe_audio env d f l fs
  = match rs with
    | inr tr =>
        (inr tr, fs,
         [ECallTranscribe d f l; ETmpCreate (fresh (dom fs)) ".wav";
          EServiceCall (if truthy f then f else PyStr "audio.wav") d l;
          EUnlink (fresh (dom fs))])
    | inl (Exc e) =>
        (inl e, <[fresh (dom fs) := TmpFile ".wav" d]> fs,
         [ECallTranscribe d f l; ETmpCreate (fresh (dom fs)) ".wav";
          EServiceCall (if truthy f then f else PyStr "audio.wav") d l;
          EPrint ("Error transcribing audio: " +:+ exn_str e)])
    | inl (Interrupt name) =>
        (inl (Interrupt name), <[fresh (dom fs) := TmpFile ".wav" d]> fs,
         [ECallTranscribe d f l; ETmpCreate (fresh (dom fs)) ".wav";
          EServiceCall (if truthy f then f else PyStr "audio.wav") d l])
    end.
Proof.
  intros Hmk Hs. destruct rs as [[e|name]|tr]; eapply with_trace.
  - unfold transcribe_audio.
    eapply bind_inr; [reflexivity|].
    eapply try_except_inl.
    2:{ eapply bind_inr; reflexivity. }
    eapply bind_inr; [unfold NamedTemporaryFile; by rewrite Hmk|].
    eapply bind_inr; [unfold read_file; by rewrite lookup_insert_eq|].
    eapply bind_inr; [reflexivity|].
    eapply bind_inl. unfold lift. simpl. by rewrite Hs.
  - reflexivity.
  - unfold transcribe_audio.
    eapply bind_inr; [reflexivity|].
    eapply try_except_interrupt.
    eapply bind_inr; [unfold NamedTemporaryFile; by rewrite Hmk|].
    eapply bind_inr; [unfold read_file; by rewrite lookup_insert_eq|].
    eapply bind_inr; [reflexivity|].
    eapply bind_inl. unfold lift. simpl. by rewrite Hs.
  - reflexivity.
  - unfold transcribe_audio.
    eapply bind_inr; [reflexivity|].
    eapply try_except_inr.
    eapply bind_inr; [unfold NamedTemporaryFile; by rewrite Hmk|].
    eapply bind_inr; [unfold read_file; by rewrite lookup_insert_eq|].
    eapply bind_inr; [reflexivity|].
    eapply bind_inr; [unfold lift; simpl; by rewrite Hs|].
    eapply bind_inr; [unfold unlink; by rewrite lookup_insert_eq|].
    rewrite create_then_delete. reflexivity.
  - reflexivity.
Qed.

Lemma transcribe_sends_what_it_was_given_aux d f l fs fs' r t fn sent lang :
  transcribe_audio env d f l fs = (r, fs', t) ->
  EServiceCall fn sent lang ∈ t ->
  fn = (if truthy f then f else PyStr "audio.wav") /\ sent = d /\ lang = l.
Proof.
  unfold transcribe_audio. intros H Hin. run;
    repeat match goal with
      | H : context [<[_ := _]> _ !! _] |- _ =>
          rewrite lookup_insert_eq in H; simplify_eq
      end;
    simpl in Hin;
    repeat (apply elem_of_cons in Hin as [Hin|Hin]; [by simplify_eq|]);
    by apply elem_of_nil in Hin.
Qed.

(** X11: whatever [transcribe_audio] does, a call it makes to the service
    carries the bytes it was given (written to the temporary file and read
    back), the language it was given, and as file name [filename], or
    [audio.wav] when [filename] is falsy. *)
Theorem transcribe_sends_what_it_was_given
    (d : bytes) (f l : pyval) (fs fs' : gmap nat tmpfile)
    (r : raised + Transcription) (t : list event)
    (file_name : pyval) (sent : bytes) (language : pyval) :
  transcribe_audio env d f l fs = (r, fs', t) ->
  EServiceCall file_name sent language ∈ t ->
  file_name = (if truthy f then f else PyStr "audio.wav") /\
  sent = d /\ language = l.
Proof.
  apply transcribe_sends_what_it_was_given_aux.
Qed.

(** *** How [main] composes the two functions *)

Lemma main_pipeline args fs b t0 wav tc rt fs2 tt :
  resolve_audio_data env args fs = (inr (inr (Some b)), fs, t0) ->
  convert_audio_to_wav env (Some b)
    (args_get args "filename" (PyStr "audio.wav")) fs = (inr wav, fs, tc) ->
  transcribe_audio env wav
    (args_get args "filename" (PyStr "audio.wav"))
    (args_get args "language" (PyStr "en")) fs = (rt, fs2, tt) ->
  main env args fs
  = (match rt with
     | inr tr => inr (success_response env tr)
     | inl x => main_on_raise x
     end, fs2, t0 ++ tc ++ tt).
Proof.
  intros Hr Hc Ht. unfold main, main_body.
  assert (negb (has_key args "audio_data") && negb (has_key args "audio_url")
          = false) as ->.
  { apply resolve_audio_data_inv in Hr
      as [_ [(v & Hk & _) | [(u & _ & Hk & _) | (_ & _ & _ & [=])]]];
      unfold has_key; rewrite Hk; [reflexivity|apply andb_false_r]. }
  unfold try_except, bind, ret. rewrite Hr, Hc, Ht.
  destruct rt as [[e|name]|tr]; by rewrite ?app_nil_r.
Qed.

Lemma resolve_url_ok args fs u re :
  args !! "audio_data" = None ->
  args !! "audio_url" = Some u ->
  requests_get env u = inr re ->
  status_code re = 200 ->
  resolve_audio_data env args fs
  = (inr (inr (Some (content re))), fs, [EHttpGet u]).
Proof.
  intros Hd Hu Hg Hs.
  unfold resolve_audio_data, has_key, args_item, bind, emit, lift, ret.
  rewrite Hd, Hu. simpl. rewrite Hg, Hs. reflexivity.
Qed.

(** X12: the whole run on the [audio_url] path when everything works: the
    GET answers 200, its content is written to a file named after the
    filename, decoded with the format selected from the filename, normalized
    and exported, the exported bytes are sent to the service under the
    request's filename and language, and [main] answers 200 with the
    service's object; both temporary files are gone and nothing else
    happens. *)
Theorem url_request_runs_end_to_end
    (args : gmap string pyval) (fs : gmap nat tmpfile)
    (u : pyval) (re : http_response) (s ffmpeg : string)
    (x : option string) (s0 s1 s2 s3 : Sound) (w : bytes)
    (tr : Transcription) :
  let filename := args_get args "filename" (PyStr "audio.wav") in
  let language := args_get args "language" (PyStr "en") in
  let file_name := if truthy filename then filename else PyStr "audio.wav" in
  let p := fresh (dom fs) in
  args !! "audio_data" = None ->
  args !! "audio_url" = Some u ->
  requests_get env u = inr re ->
  status_code re = 200 ->
  get_ffmpeg_exe env = inr ffmpeg ->
  (if truthy filename then filename else PyStr ".audio") = PyStr s ->
  mkstemp_error env s = None ->
  mkstemp_error env ".wav" = None ->
  input_format_of filename = inr x ->
  from_file_decode env (TmpFile s (content re)) (use_hint x) = inr s0 ->
  set_frame_rate env s0 16000 = inr s1 ->
  set_channels env s1 1 = inr s2 ->
  set_sample_width env s2 2 = inr s3 ->
  export env s3 "wav" "pcm_s16le" = inr w ->
  transcriptions_create env file_name w "whisper-large-v3-turbo"
    "Please separate different speakers and label them." language
    "verbose_json" = inr tr ->
  main env args fs
  = (inr (Response 200 [("transcription_text", BStr (text env tr));
                        ("full_transcription", BObj tr)]),
     fs,
     [EHttpGet u;
      ECallConvert (Some (content re)) filename;
      ETmpCreate p s; EFromFile p (use_hint x); EUnlink p;
      ECallTranscribe w filename language;
      ETmpCreate p ".wav"; EServiceCall file_name w language; EUnlink p]).
Proof.
  intros filename language file_name p Hd Hu Hg Hst Hff Hsuf Hmk Hmk' Hif
    Hdec H1 H2 H3 H4 Hsvc.
  pose proof (resolve_url_ok args fs u re Hd Hu Hg Hst) as Hr.
  assert (convert_audio_to_wav env (Some (content re)) filename fs
          = (inr w, fs,
             ECallConvert (Some (content re)) filename :: ETmpCreate p s
               :: [EFromFile p (use_hint x)] ++ [EUnlink p])) as Hc.
  { apply (convert_with_sound _ _ s ffmpeg x s0 s1 s2 s3); try assumption.
    eapply try_except_inr. rewrite first_attempt_eq.
    by rewrite (from_file_run _ _ _ _ (lookup_insert_eq _ _ _)), Hdec. }
  pose proof (transcribe_run w filename language fs _ Hmk' Hsvc) as Ht.
  simpl in Ht.
  exact (main_pipeline args fs _ _ _ _ _ _ _ Hr Hc Ht).
Qed.


(** X14: in any run of [main], a call of the transcription service carries
    the request's [language] (or [en] when the key is absent), the request's
    [filename] (or [audio.wav] when it is absent or falsy), and bytes that
    the normalizer returned in this run. *)
Theorem main_sends_normalized_audio
    (args : gmap string pyval) (fs fs' : gmap nat tmpfile)
    (r : raised + response Transcription) (t : list event)
    (file_name : pyval) (sent : bytes) (lang : pyval) :
  let filename := args_get args "filename" (PyStr "audio.wav") in
  main env args fs = (r, fs', t) ->
  EServiceCall file_name sent lang ∈ t ->
  lang = args_get args "language" (PyStr "en") /\
  file_name = (if truthy filename then filename else PyStr "audio.wav") /\
  exists d tc, convert_audio_to_wav env d filename fs = (inr sent, fs, tc).
Proof.
  intros filename Hm Hin.
  assert (forall t0 rr, resolve_audio_data env args fs = (rr, fs, t0) ->
                        EServiceCall file_name sent lang ∉ t0) as Hres.
  { intros t0 rr [->|[u ->]]%resolve_trace Hx.
    - by apply elem_of_nil in Hx.
    - apply list_elem_of_singleton in Hx. discriminate Hx. }
  assert (forall d rc fs1 tc,
             convert_audio_to_wav env d filename fs = (rc, fs1, tc) ->
             EServiceCall file_name sent lang ∉ tc) as Hconv.
  { intros d rc fs1 tc Hc%convert_trace Hx.
    rewrite Forall_forall in Hc. exact (Hc _ Hx). }
  apply main_inv in Hm
    as [(_ & _ & _ & _ & ->) | [(resp & Hr & _) | [(e & Hr & _) |
       [(d & t0 & tc & e & Hr & Hc & _ & ->) |
       [(d & t0 & tc & wav & tt & e & Hr & Hc & Ht & _ & ->) |
        (d & t0 & tc & wav & tt & tr & Hr & Hc & Ht & _ & _ & ->)]]]]].
  - by apply elem_of_nil in Hin.
  - by apply Hres in Hr.
  - by apply Hres in Hr.
  - apply elem_of_app in Hin as [Hin|Hin];
      [by apply Hres in Hr|by apply Hconv in Hc].
  - apply elem_of_app in Hin as [Hin|Hin]; [by apply Hres in Hr|].
    apply elem_of_app in Hin as [Hin|Hin]; [by apply Hconv in Hc|].
    destruct (transcribe_sends_what_it_was_given_aux _ _ _ _ _ _ _ _ _ _ Ht Hin)
      as (-> & -> & ->).
    repeat split. eauto.
  - apply elem_of_app in Hin as [Hin|Hin]; [by apply Hres in Hr|].
    apply elem_of_app in Hin as [Hin|Hin]; [by apply Hconv in Hc|].
    destruct (transcribe_sends_what_it_was_given_aux _ _ _ _ _ _ _ _ _ _ Ht Hin)
      as (-> & -> & ->).
    repeat split. eauto.
Qed.

(** X15: in any run of [main], the normalizer is called with the request's
    [filename] (or [audio.wav]) and with bytes, never with [None]: the
    bytes [base64.b64decode] returned for [audio_data], or else the content
    of the response to the GET of [audio_url], whose status was 200. *)
Theorem main_normalizes_the_resolved_bytes
    (args : gmap string pyval) (fs fs' : gmap nat tmpfile)
    (r : raised + response Transcription) (t : list event)
    (d : option bytes) (f : pyval) :
  main env args fs = (r, fs', t) ->
  ECallConvert d f ∈ t ->
  f = args_get args "filename" (PyStr "audio.wav") /\
  exists b, d = Some b /\
    ((exists v, args !! "audio_data" = Some v /\ b64decode env v = inr b) \/
     (exists u re, args !! "audio_data" = None /\
                   args !! "audio_url" = Some u /\
                   requests_get env u = inr re /\
                   status_code re = 200 /\ content re = b)).
Proof.
  intros Hm Hin.
  assert (forall t0 rr, resolve_audio_data env args fs = (rr, fs, t0) ->
                        ECallConvert d f ∉ t0) as Hres.
  { intros t0 rr [->|[u ->]]%resolve_trace Hx.
    - by apply elem_of_nil in Hx.
    - apply list_elem_of_singleton in Hx. discriminate Hx. }
  destruct (has_key args "audio_data" || has_key args "audio_url") eqn:Ekey.
  2:{ apply orb_false_elim in Ekey as [E1%has_key_false E2%has_key_false].
      revert Hm. unfold main, main_body, try_except, has_key, ret.
      rewrite E1, E2. simpl. intros [= ? ? ?]; subst.
      by apply elem_of_nil in Hin. }
  assert (forall d0 t0,
             resolve_audio_data env args fs = (inr (inr d0), fs, t0) ->
             exists b, d0 = Some b /\
               ((exists v, args !! "audio_data" = Some v /\
                           b64decode env v = inr b) \/
                (exists u re, args !! "audio_data" = None /\
                              args !! "audio_url" = Some u /\
                              requests_get env u = inr re /\
                              status_code re = 200 /\ content re = b)))
    as Hsrc.
  { intros d0 t0 Hr. apply resolve_audio_data_inv in Hr
      as [_ [(v & Hk & _ & Hv) | [(u & Hk1 & Hk2 & _ & Hu) | (E1 & E2 & _)]]].
    - destruct (b64decode env v) as [|b] eqn:Eb; simplify_eq.
      exists b. split; [done|]. left. eauto.
    - destruct (requests_get env u) as [|re] eqn:Eg; [discriminate Hu|].
      destruct (Z.eqb_spec (status_code re) 200); simplify_eq.
      exists (content re). split; [done|]. right. exists u, re. auto.
    - unfold has_key in Ekey. rewrite E1, E2 in Ekey. discriminate Ekey. }
  assert (forall d0 t0 rc fs1 tc tt,
             resolve_audio_data env args fs = (inr (inr d0), fs, t0) ->
             convert_audio_to_wav env d0
               (args_get args "filename" (PyStr "audio.wav")) fs
             = (rc, fs1, tc) ->
             Forall transcribe_event tt ->
             ECallConvert d f ∈ t0 ++ tc ++ tt ->
             f = args_get args "filename" (PyStr "audio.wav") /\
             exists b, d = Some b /\
               ((exists v, args !! "audio_data" = Some v /\
                           b64decode env v = inr b) \/
                (exists u re, args !! "audio_data" = None /\
                              args !! "audio_url" = Some u /\
                              requests_get env u = inr re /\
                              status_code re = 200 /\ content re = b)))
    as Hpipe.
  { intros d0 t0 rc fs1 tc tt Hr Hc Htt Hx.
    apply elem_of_app in Hx as [Hx|Hx]; [by apply Hres in Hr|].
    apply elem_of_app in Hx as [Hx|Hx].
    - apply (convert_call_in_trace _ _ _ _ _ _ _ _ Hc) in Hx as [-> ->].
      split; [done|]. by apply (Hsrc _ t0).
    - rewrite Forall_forall in Htt. by apply Htt in Hx. }
  apply main_inv in Hm
    as [(_ & _ & _ & _ & ->) | [(resp & Hr & _) | [(e & Hr & _) |
       [(d0 & t0 & tc & e & Hr & Hc & _ & ->) |
       [(d0 & t0 & tc & wav & tt & e & Hr & Hc & Ht & _ & ->) |
        (d0 & t0 & tc & wav & tt & tr & Hr & Hc & Ht & _ & _ & ->)]]]]].
  - by apply elem_of_nil in Hin.
  - by apply Hres in Hr.
  - by apply Hres in Hr.
  - apply (Hpipe d0 t0 _ _ tc [] Hr Hc); [apply Forall_nil_2|].
    by rewrite app_nil_r.
  - exact (Hpipe d0 t0 _ _ tc tt Hr Hc (transcribe_trace _ _ _ _ _ _ _ Ht) Hin).
  - exact (Hpipe d0 t0 _ _ tc tt Hr Hc (transcribe_trace _ _ _ _ _ _ _ Ht) Hin).
Qed.

(** X16: [main] answers 400 in exactly two situations: the request has
    neither [audio_data] nor [audio_url], or it has no [audio_data] and the
    GET of its [audio_url] returned a response whose status is not 200. *)
Theorem status_400_exactly_on_validation_failure
    (args : gmap string pyval) (fs fs' : gmap nat tmpfile)
    (resp : response Transcription) (t : list event) :
  main env args fs = (inr resp, fs', t) ->
  (statusCode resp = 400 <->
   args !! "audio_data" = None /\
   (args !! "audio_url" = None \/
    exists u re, args !! "audio_url" = Some u /\
                 requests_get env u = inr re /\ status_code re <> 200)).
Proof.
  intros Hm. split.
  - intros Hs.
    apply main_inv in Hm
      as [(E1 & E2 & _) | [(resp' & Hr & Hr' & _) | [(e & _ & Hr & _) |
         [(? & ? & ? & e & _ & _ & Hr & _) |
         [(? & ? & ? & ? & ? & e & _ & _ & _ & Hr & _) |
          (d & t0 & tc & wav & tt & tr & _ & _ & Ht & Hr & _)]]]]];
      split_raise; simplify_eq; try discriminate Hs; [by auto|].
    apply resolve_audio_data_inv in Hr
      as [_ [(v & _ & _ & Hv) | [(u & E1 & E2 & _ & Hu) | (_ & _ & _ & [=])]]].
    + destruct (b64decode env v); discriminate Hv.
    + destruct (requests_get env u) as [|re] eqn:Eg; [discriminate Hu|].
      destruct (Z.eqb_spec (status_code re) 200); simplify_eq.
      split; [done|]. right. exists u, re. auto.
  - intros [E1 [E2|(u & re & E2 & Hg & Hs%Z.eqb_neq)]]; revert Hm;
      unfold main, main_body, resolve_audio_data, try_except, has_key,
        args_item, bind, emit, lift, ret; rewrite E1, E2; simpl.
    + by intros [= <- _ _].
    + rewrite Hg, Hs. simpl. by intros [= <- _ _].
Qed.

(** *** The format hint *)

Lemma lower_ascii_eqb_dot a : Ascii.eqb (lower_ascii a) "." = Ascii.eqb a ".".
Proof. by destruct a as [[] [] [] [] [] [] [] []]. Qed.

Lemma lower_ascii_eqb_sep a : Ascii.eqb (lower_ascii a) "/" = Ascii.eqb a "/".
Proof. by destruct a as [[] [] [] [] [] [] [] []]. Qed.

Lemma lower_ascii_idem a : lower_ascii (lower_ascii a) = lower_ascii a.
Proof. by destruct a as [[] [] [] [] [] [] [] []]. Qed.

Lemma lower_idem s : lower (lower s) = lower s.
Proof.
  induction s as [|a s IH]; [reflexivity|].
  simpl. by rewrite lower_ascii_idem, IH.
Qed.

Lemma length_lower s : String.length (lower s) = String.length s.
Proof. induction s as [|a s IH]; [reflexivity|]. simpl. by rewrite IH. Qed.

Lemma rfind_from_lower c s i last :
  (forall a, Ascii.eqb (lower_ascii a) c = Ascii.eqb a c) ->
  rfind_from c (lower s) i last = rfind_from c s i last.
Proof.
  intros Hc. revert i last.
  induction s as [|a s IH]; intros i last; [reflexivity|].
  simpl. by rewrite Hc, IH.
Qed.

Lemma get_lower n s :
  String.get n (lower s) = option_map lower_ascii (String.get n s).
Proof.
  revert n. induction s as [|a s IH]; intros [|n]; simpl; try reflexivity.
  apply IH.
Qed.

Lemma is_dot_match {A} (a : ascii) (x y : A) :
  match Some a with Some "."%char => x | _ => y end
  = if Ascii.eqb a "." then x else y.
Proof. by destruct a as [[] [] [] [] [] [] [] []]. Qed.

Lemma has_non_dot_lower p i n :
  has_non_dot (lower p) i n = has_non_dot p i n.
Proof.
  revert i. induction n as [|n IH]; intros i; [reflexivity|].
  simpl. rewrite get_lower.
  destruct (String.get i p) as [a|]; simpl; [|reflexivity].
  rewrite !is_dot_match, lower_ascii_eqb_dot, IH. reflexivity.
Qed.

Lemma substring_lower n m s :
  String.substring n m (lower s) = lower (String.substring n m s).
Proof.
  revert n m. induction s as [|a s IH]; intros [|n] [|m]; simpl;
    try reflexivity; by rewrite IH.
Qed.

Lemma splitext_ext_lower s : splitext_ext (lower s) = lower (splitext_ext s).
Proof.
  unfold splitext_ext, rfind.
  rewrite !rfind_from_lower
    by first [apply lower_ascii_eqb_dot | apply lower_ascii_eqb_sep].
  rewrite has_non_dot_lower, length_lower, substring_lower.
  by destruct (_ && _).
Qed.

(** X17: the format selected from a filename does not depend on the case
    of its letters: [Talk.MP3] and [talk.mp3] select the same format. *)
Theorem input_format_ignores_case (s : string) :
  input_format_of (PyStr (lower s)) = input_format_of (PyStr s).
Proof.
  unfold input_format_of.
  assert (truthy (PyStr (lower s)) = truthy (PyStr s)) as ->
    by (by destruct s).
  destruct (truthy (PyStr s)); [|reflexivity].
  by rewrite splitext_ext_lower, lower_idem.
Qed.

Lemma use_hint_known x fmt : use_hint x = Some fmt -> In fmt known_formats.
Proof.
  unfold use_hint. destruct x as [f|]; [|discriminate].
  destruct (negb (f =? "")%string && in_list f known_formats) eqn:E;
    [|discriminate].
  intros [= <-]. apply andb_prop in E as [_ E]. unfold in_list in E.
  apply existsb_exists in E as (y & Hy & Heq).
  apply String.eqb_eq in Heq. by subst y.
Qed.

Lemma convert_decodes_known_formats d f fs r fs' t p fmt :
  convert_audio_to_wav env d f fs = (r, fs', t) ->
  EFromFile p (Some fmt) ∈ t -> In fmt known_formats.
Proof.
  unfold convert_audio_to_wav. intros H Hin. run; simpl in Hin;
    repeat (apply elem_of_cons in Hin as [Hin|Hin];
            [simplify_eq; eauto using use_hint_known|]);
    by apply elem_of_nil in Hin.
Qed.

(** X18: in any run of [main], a decode attempt is made with no format or
    with one of [mp3], [wav], [flac], [ogg], [aac], [m4a], [wma], whatever
    the request's filename is. *)
Theorem main_decodes_only_known_formats
    (args : gmap string pyval) (fs fs' : gmap nat tmpfile)
    (r : raised + response Transcription) (t : list event)
    (p : nat) (fmt : string) :
  main env args fs = (r, fs', t) ->
  EFromFile p (Some fmt) ∈ t ->
  In fmt known_formats.
Proof.
  intros Hm Hin.
  assert (forall t0 rr, resolve_audio_data env args fs = (rr, fs, t0) ->
                        EFromFile p (Some fmt) ∉ t0) as Hres.
  { intros t0 rr [->|[u ->]]%resolve_trace Hx.
    - by apply elem_of_nil in Hx.
    - apply list_elem_of_singleton in Hx. discriminate Hx. }
  assert (forall tt, Forall transcribe_event tt -> EFromFile p (Some fmt) ∉ tt)
    as Htr.
  { intros tt Htt Hx. rewrite Forall_forall in Htt. exact (Htt _ Hx). }
  apply main_inv in Hm
    as [(_ & _ & _ & _ & ->) | [(resp & Hr & _) | [(e & Hr & _) |
       [(d0 & t0 & tc & e & Hr & Hc & _ & ->) |
       [(d0 & t0 & tc & wav & tt & e & Hr & Hc & Ht & _ & ->) |
        (d0 & t0 & tc & wav & tt & tr & Hr & Hc & Ht & _ & _ & ->)]]]]].
  - by apply elem_of_nil in Hin.
  - by apply Hres in Hr.
  - by apply Hres in Hr.
  - apply elem_of_app in Hin as [Hin|Hin]; [by apply Hres in Hr|].
    exact (convert_decodes_known_formats _ _ _ _ _ _ _ _ Hc Hin).
  - apply elem_of_app in Hin as [Hin|Hin]; [by apply Hres in Hr|].
    apply elem_of_app in Hin as [Hin|Hin];
      [exact (convert_decodes_known_formats _ _ _ _ _ _ _ _ Hc Hin)|].
    by apply (Htr tt (transcribe_trace _ _ _ _ _ _ _ Ht)) in Hin.
  - apply elem_of_app in Hin as [Hin|Hin]; [by apply Hres in Hr|].
    apply elem_of_app in Hin as [Hin|Hin];
      [exact (convert_decodes_known_formats _ _ _ _ _ _ _ _ Hc Hin)|].
    by apply (Htr tt (transcribe_trace _ _ _ _ _ _ _ Ht)) in Hin.
Qed.

(** *** Failures before and after the temporary file exists *)

(** X19: when the operating system refuses to create the temporary file
    (the suffix is the whole filename, so a filename with a path separator
    is enough), [convert_audio_to_wav] prints and raises that error; no file
    was created and no decode was attempted. *)
Theorem refused_temp_file_raises_early
    (d : option bytes) (f : pyval) (fs : gmap nat tmpfile)
    (ffmpeg s : string) (e : exn) :
  get_ffmpeg_exe env = inr ffmpeg ->
  (if truthy f then f else PyStr ".audio") = PyStr s ->
  mkstemp_error env s = Some e ->
  convert_audio_to_wav env d f fs
  = (inl e, fs,
     [ECallConvert d f; EPrint ("Error converting audio: " +:+ exn_str e)]).
Proof.
  intros Hff Hsuf Hmk. eapply with_trace.
  - unfold convert_audio_to_wav.
    eapply bind_inr; [reflexivity|].
    eapply try_except_inl.
    2:{ eapply bind_inr; reflexivity. }
    eapply bind_inr; [unfold lift; by rewrite Hff|].
    eapply bind_inl. unfold NamedTemporaryFile. by rewrite Hsuf, Hmk.
  - reflexivity.
Qed.


(** X21: a filename that is truthy but not a string (a number, [true], a
    non-empty list) makes [convert_audio_to_wav] raise before any file
    exists: the store is unchanged and no decode is attempted. *)
Theorem non_string_filename_raises_early
    (d : option bytes) (f : pyval) (fs : gmap nat tmpfile) :
  truthy f = true ->
  is_str f = false ->
  exists e t,
    convert_audio_to_wav env d f fs = (inl e, fs, t) /\
    decode_attempts t = [] /\
    forall p s, ETmpCreate p s ∉ t.
Proof.
  intros Ht Hns.
  destruct (convert_audio_to_wav env d f fs) as [[r fs'] t] eqn:Hc.
  pose proof Hc as Hrun. unfold convert_audio_to_wav in Hrun.
  rewrite Ht in Hrun.
  run; try discriminate Hns.
  all: eexists _, _; split; [reflexivity|]; split; [reflexivity|].
  all: intros p s Hin; simpl in Hin;
    repeat (apply elem_of_cons in Hin as [Hin|Hin]; [discriminate Hin|]);
    by apply elem_of_nil in Hin.
Qed.

(** X22: with a falsy filename ([None], the empty string, [0], [false], an
    empty list) the temporary file of [convert_audio_to_wav] gets the suffix
    [.audio] and every decode attempt is made without a format. *)
Theorem falsy_filename_uses_default_suffix
    (d : option bytes) (f : pyval) (fs fs' : gmap nat tmpfile)
    (r : raised + bytes) (t : list event) :
  truthy f = false ->
  convert_audio_to_wav env d f fs = (r, fs', t) ->
  (forall p s, ETmpCreate p s ∈ t -> s = ".audio") /\
  Forall (fun fmt => fmt = None) (decode_attempts t).
Proof.
  intros Ht Hc. unfold convert_audio_to_wav, input_format_of in Hc.
  rewrite Ht in Hc.
  run; (split; [intros p s Hin; simpl in Hin;
                repeat (apply elem_of_cons in Hin as [Hin|Hin];
                        [by simplify_eq|]);
                by apply elem_of_nil in Hin
               |simpl; repeat constructor]).
Qed.



End Properties.

(** ** The handler at work on concrete requests *)

Example splitext_examples :
  map splitext_ext ["audio.wav"; "Talk.MP3"; "x.tar.gz"; ".bashrc"; "a.b/c"; "noext"]
  = [".wav"; ".MP3"; ".gz"; ""; ""; ""].
Proof. reflexivity. Qed.

Example format_of_examples :
  map (fun s => use_hint (Some (remove_dots (lower (splitext_ext s)))))
    ["audio.wav"; "Talk.MP3"; "clip.webm"; "noext"]
  = [Some "wav"; Some "mp3"; None; None].
Proof. reflexivity. Qed.

Example good_upload_is_transcribed :
  main (Demo.env 200 Demo.always true) Demo.args_data ∅
  = (inr Demo.ok_response, ∅, Demo.ok_trace).
Proof. vm_compute. reflexivity. Qed.

Example upload_wins_over_url :
  main (Demo.env 404 Demo.always true) Demo.args_both ∅
  = (inr Demo.ok_response, ∅, Demo.ok_trace).
Proof. vm_compute. reflexivity. Qed.

(** [convert_audio_to_wav(b"RIFF", "audio.wav")] with a decoder that rejects
    the bytes: the call raises and file 0 is still there. *)
Example undecodable_upload_leaves_temp_file :
  convert_audio_to_wav (Demo.env 200 Demo.never true)
    (Some Demo.riff) (PyStr "audio.wav") ∅
  = (inl (Exception "Decoding failed. ffmpeg returned error code: 1"),
     {[ 0%nat := TmpFile "audio.wav" Demo.riff ]},
     [ECallConvert (Some Demo.riff) (PyStr "audio.wav");
      ETmpCreate 0%nat "audio.wav";
      EFromFile 0%nat (Some "wav");
      EPrint "Error loading audio: Decoding failed. ffmpeg returned error code: 1";
      EFromFile 0%nat None;
      EPrint "Error converting audio: Decoding failed. ffmpeg returned error code: 1"]).
Proof. vm_compute. reflexivity. Qed.

(** A [filename] key that is present but empty does reach the branch that
    skips the hint. *)
Example empty_filename_skips_hint :
  decode_attempts
    (main (Demo.env 200 Demo.always true) Demo.args_empty_name ∅).2
  = [None].
Proof. vm_compute. reflexivity. Qed.

(** The same request against a service that refuses the call: [main]
    answers 500 and the WAV file of [transcribe_audio] is still there. *)
Example refused_transcription_leaves_temp_file :
  main (Demo.env 200 Demo.always false) Demo.args_data ∅
  = (inr (Response 500 [("error", BStr "Error code: 401")]),
     {[ 0%nat := TmpFile ".wav" Demo.riff ]},
     [ECallConvert (Some Demo.riff) (PyStr "audio.wav");
      ETmpCreate 0%nat "audio.wav"; EFromFile 0%nat (Some "wav");
      EUnlink 0%nat;
      ECallTranscribe Demo.riff (PyStr "audio.wav") (PyStr "en");
      ETmpCreate 0%nat ".wav";
      EServiceCall (PyStr "audio.wav") Demo.riff (PyStr "en");
      EPrint "Error transcribing audio: Error code: 401"]).
Proof. vm_compute. reflexivity. Qed.


Lemma temp_file_left_behind_on_failure_witness :
  let p := fresh (dom (∅ : gmap nat tmpfile)) in
  (∅ : gmap nat tmpfile) !! p = None /\
  (exists t, convert_audio_to_wav (Demo.env 200 Demo.never false)
               (Some Demo.riff) (PyStr "audio.wav") ∅
             = (inl (Exception "Decoding failed. ffmpeg returned error code: 1"),
                <[p := TmpFile "audio.wav" Demo.riff]> ∅, t)) /\
  (exists t, transcribe_audio (Demo.env 200 Demo.never false)
               Demo.riff (PyStr "audio.wav") (PyStr "en") ∅
             = (inl (Exception "Error code: 401"),
                <[p := TmpFile ".wav" Demo.riff]> ∅, t)).
Proof.
  apply (temp_file_left_behind_on_failure (Demo.env 200 Demo.never false)
           Demo.riff Demo.riff "audio.wav" "/usr/bin/ffmpeg"
           (PyStr "audio.wav") (PyStr "en") ∅
           (Exception "Decoding failed. ffmpeg returned error code: 1"));
    reflexivity.
Defined.

Lemma missing_source_is_rejected_witness :
  exists msg,
    main (Demo.env 200 Demo.always true) ∅ ∅
    = (inr (Response 400 [("error", BStr msg)]), ∅, []) /\
    String.prefix "Missing required parameter" msg = true.
Proof.
  apply (missing_source_is_rejected (Demo.env 200 Demo.always true) ∅ ∅);
    reflexivity.
Defined.

Lemma url_bad_status_is_rejected_witness :
  main (Demo.env 404 Demo.always true) Demo.args_url ∅
  = (inr (Response 400
            [("error",
              BStr "Failed to download audio from URL. Status code: 404")]),
     ∅, [EHttpGet (PyStr "http://example.org/a.mp3")]).
Proof.
  refine (proj1 (url_bad_status_is_rejected (Demo.env 404 Demo.always true)
                   Demo.args_url ∅ (PyStr "http://example.org/a.mp3")
                   (HttpResponse 404 [x49; x44; x33]) _ _ _) _);
    [reflexivity | reflexivity | reflexivity | simpl; lia].
Defined.

Lemma hinted_decode_failure_retries_once_witness :
  exists r fs' t,
    convert_audio_to_wav (Demo.env 200 Demo.never true)
      (Some Demo.riff) (PyStr "talk.mp3") ∅ = (r, fs', t) /\
    decode_attempts t = [Some "mp3"; None] /\
    forall e2 : exn,
      from_file_decode (Demo.env 200 Demo.never true)
        (TmpFile "talk.mp3" Demo.riff) None = inl e2 ->
      r = inl e2 /\
      forall args t0,
        args_get args "filename" (PyStr "audio.wav") = PyStr "talk.mp3" ->
        resolve_audio_data (Demo.env 200 Demo.never true) args ∅
        = (inr (inr (Some Demo.riff)), ∅, t0) ->
        main (Demo.env 200 Demo.never true) args ∅
        = (inr (Response 500 [("error", BStr (exn_str e2))]), fs', t0 ++ t).
Proof.
  apply (hinted_decode_failure_retries_once (Demo.env 200 Demo.never true)
           Demo.riff "talk.mp3" "/usr/bin/ffmpeg" "mp3" ∅
           (Exception "Decoding failed. ffmpeg returned error code: 1"));
    reflexivity.
Defined.

Lemma success_passes_service_result_through_witness :
  exists tr file_name wav language,
    EServiceCall file_name wav language ∈ Demo.ok_trace /\
    transcriptions_create (Demo.env 200 Demo.always true) file_name wav
      "whisper-large-v3-turbo"
      "Please separate different speakers and label them." language
      "verbose_json" = inr tr /\
    body Demo.ok_response
    = [("transcription_text", BStr (text (Demo.env 200 Demo.always true) tr));
       ("full_transcription", BObj tr)].
Proof.
  apply (success_passes_service_result_through
           (Demo.env 200 Demo.always true) Demo.args_data ∅ ∅
           Demo.ok_response Demo.ok_trace);
    [vm_compute; reflexivity | reflexivity].
Defined.

Lemma audio_data_takes_precedence_witness :
  (forall ev, ev ∈ Demo.ok_trace -> is_http_get ev = false) /\
  (forall d f, ECallConvert d f ∈ Demo.ok_trace ->
               exists b, b64decode (Demo.env 404 Demo.always true)
                           (PyStr "UklGRg==") = inr b /\ d = Some b).
Proof.
  apply (audio_data_takes_precedence (Demo.env 404 Demo.always true)
           Demo.args_both ∅ ∅ (PyStr "UklGRg==")
           (PyStr "http://example.org/a.mp3") (inr Demo.ok_response)
           Demo.ok_trace);
    [reflexivity | reflexivity | vm_compute; reflexivity].
Defined.

Lemma default_filename_selects_wav_hint_witness :
  (forall d f, ECallConvert d f ∈ Demo.ok_trace -> f = PyStr "audio.wav") /\
  (forall fmt, head (decode_attempts Demo.ok_trace) = Some fmt ->
               fmt = Some "wav").
Proof.
  apply (default_filename_selects_wav_hint (Demo.env 200 Demo.always true)
           Demo.args_data ∅ ∅ (inr Demo.ok_response) Demo.ok_trace);
    [reflexivity | vm_compute; reflexivity].
Defined.

Lemma validation_failure_touches_nothing_witness :
  (∅ : gmap nat tmpfile) = ∅ /\
  ([EHttpGet (PyStr "http://example.org/a.mp3")] = [] \/
   exists u, [EHttpGet (PyStr "http://example.org/a.mp3")] = [EHttpGet u]) /\
  forallb (fun ev => negb (is_side_effect_of_pipeline ev))
    [EHttpGet (PyStr "http://example.org/a.mp3")] = true.
Proof.
  apply (validation_failure_touches_nothing (Demo.env 404 Demo.always true)
           Demo.args_url ∅ ∅
           (Response 400
              [("error",
                BStr "Failed to download audio from URL. Status code: 404")])
           [EHttpGet (PyStr "http://example.org/a.mp3")]);
    [vm_compute; reflexivity | reflexivity].
Defined.

(** ** Witnesses of the further properties *)

Lemma convert_returns_export_of_normalized_sound_witness :
  exists b s fmt s0 s1 s2 s3,
    Some Demo.riff = Some b /\
    PyStr "audio.wav" = PyStr s /\
    (fmt = None \/
     exists x, input_format_of (PyStr "audio.wav") = inr x /\
               fmt = use_hint x) /\
    from_file_decode Demo.good (TmpFile s b) fmt = inr s0 /\
    set_frame_rate Demo.good s0 16000 = inr s1 /\
    set_channels Demo.good s1 1 = inr s2 /\
    set_sample_width Demo.good s2 2 = inr s3 /\
    export Demo.good s3 "wav" "pcm_s16le" = inr Demo.riff.
Proof.
  apply (convert_returns_export_of_normalized_sound Demo.good
           (Some Demo.riff) (PyStr "audio.wav") ∅ ∅ Demo.riff
           Demo.convert_ok_trace).
  vm_compute. reflexivity.
Defined.

Lemma convert_return_leaves_no_file_witness :
  (∅ : gmap nat tmpfile) = ∅ /\
  exists s, ETmpCreate (fresh (dom (∅ : gmap nat tmpfile))) s
              ∈ Demo.convert_ok_trace /\
            EUnlink (fresh (dom (∅ : gmap nat tmpfile)))
              ∈ Demo.convert_ok_trace /\
            forall p, EUnlink p ∈ Demo.convert_ok_trace ->
                      p = fresh (dom (∅ : gmap nat tmpfile)).
Proof.
  apply (convert_return_leaves_no_file Demo.good
           (Some Demo.riff) (PyStr "audio.wav") ∅ ∅ Demo.riff
           Demo.convert_ok_trace).
  vm_compute. reflexivity.
Defined.

Lemma transcribe_return_leaves_no_file_witness :
  (∅ : gmap nat tmpfile) = ∅ /\
  transcriptions_create Demo.good (PyStr "audio.wav") Demo.riff
    "whisper-large-v3-turbo"
    "Please separate different speakers and label them." (PyStr "fr")
    "verbose_json"
  = inr (Demo.Transcript "hello" (PyStr "fr")).
Proof.
  apply (transcribe_return_leaves_no_file Demo.good
           Demo.riff (PyStr "") (PyStr "fr") ∅ ∅
           (Demo.Transcript "hello" (PyStr "fr"))
           (transcribe_audio Demo.good Demo.riff (PyStr "") (PyStr "fr") ∅).2).
  vm_compute. reflexivity.
Defined.

Lemma main_keeps_existing_files_witness :
  (main (Demo.env 200 Demo.never true) Demo.args_data Demo.busy).1.2 !! 7%nat
  = Some (TmpFile "keep.txt" Demo.riff).
Proof.
  apply (main_keeps_existing_files (Demo.env 200 Demo.never true)
           Demo.args_data Demo.busy
           (main (Demo.env 200 Demo.never true) Demo.args_data Demo.busy).1.2
           (main (Demo.env 200 Demo.never true) Demo.args_data Demo.busy).1.1
           (main (Demo.env 200 Demo.never true) Demo.args_data Demo.busy).2
           7%nat (TmpFile "keep.txt" Demo.riff));
    vm_compute; reflexivity.
Defined.

Lemma success_leaves_no_file_witness :
  (∅ : gmap nat tmpfile) = ∅ /\
  count_events is_call_convert Demo.ok_trace = 1%nat /\
  count_events is_call_transcribe Demo.ok_trace = 1%nat /\
  count_events is_service_call Demo.ok_trace = 1%nat.
Proof.
  apply (success_leaves_no_file Demo.good Demo.args_data ∅ ∅
           Demo.ok_response Demo.ok_trace);
    [vm_compute; reflexivity | reflexivity].
Defined.

Lemma main_retries_nothing_witness :
  (count_events is_http_get Demo.ok_trace <= 1)%nat /\
  (count_events is_call_convert Demo.ok_trace <= 1)%nat /\
  (count_events is_call_transcribe Demo.ok_trace <= 1)%nat /\
  (count_events is_service_call Demo.ok_trace <= 1)%nat /\
  (length (decode_attempts Demo.ok_trace) <= 2)%nat.
Proof.
  apply (main_retries_nothing Demo.good Demo.args_data ∅ ∅
           (inr Demo.ok_response) Demo.ok_trace).
  vm_compute. reflexivity.
Defined.



Lemma failed_hint_is_rescued_by_retry_witness :
  convert_audio_to_wav (Demo.env 200 Demo.unhinted_only true)
    (Some Demo.riff) (PyStr "talk.mp3") ∅
  = (inr Demo.riff, ∅,
     [ECallConvert (Some Demo.riff) (PyStr "talk.mp3");
      ETmpCreate (fresh (dom (∅ : gmap nat tmpfile))) "talk.mp3";
      EFromFile (fresh (dom (∅ : gmap nat tmpfile))) (Some "mp3");
      EPrint ("Error loading audio: "
              +:+ "Decoding failed. ffmpeg returned error code: 1");
      EFromFile (fresh (dom (∅ : gmap nat tmpfile))) None;
      EUnlink (fresh (dom (∅ : gmap nat tmpfile)))]).
Proof.
  apply (failed_hint_is_rescued_by_retry (Demo.env 200 Demo.unhinted_only true)
           Demo.riff (PyStr "talk.mp3") "talk.mp3" "/usr/bin/ffmpeg" "mp3"
           (Some "mp3")
           (Exception "Decoding failed. ffmpeg returned error code: 1")
           Demo.riff Demo.riff Demo.riff Demo.riff Demo.riff ∅);
    reflexivity.
Defined.

Lemma unhinted_failure_is_retried_too_witness :
  exists fs',
    convert_audio_to_wav (Demo.env 200 Demo.never true)
      (Some Demo.riff) (PyStr "clip.webm") ∅
    = (inl (Exception "Decoding failed. ffmpeg returned error code: 1"), fs',
       [ECallConvert (Some Demo.riff) (PyStr "clip.webm");
        ETmpCreate (fresh (dom (∅ : gmap nat tmpfile))) "clip.webm";
        EFromFile (fresh (dom (∅ : gmap nat tmpfile))) None;
        EPrint ("Error loading audio: "
                +:+ "Decoding failed. ffmpeg returned error code: 1");
        EFromFile (fresh (dom (∅ : gmap nat tmpfile))) None;
        EPrint ("Error converting audio: "
                +:+ "Decoding failed. ffmpeg returned error code: 1")]).
Proof.
  apply (unhinted_failure_is_retried_too (Demo.env 200 Demo.never true)
           Demo.riff (PyStr "clip.webm") "clip.webm" "/usr/bin/ffmpeg"
           (Some "webm")
           (Exception "Decoding failed. ffmpeg returned error code: 1") ∅);
    reflexivity.
Defined.

Lemma transcribe_sends_what_it_was_given_witness :
  PyStr "audio.wav" = (if truthy (PyStr "") then PyStr "" else PyStr "audio.wav") /\
  Demo.riff = Demo.riff /\ PyStr "fr" = PyStr "fr".
Proof.
  apply (transcribe_sends_what_it_was_given Demo.good
           Demo.riff (PyStr "") (PyStr "fr") ∅
           (transcribe_audio Demo.good Demo.riff (PyStr "") (PyStr "fr") ∅).1.2
           (transcribe_audio Demo.good Demo.riff (PyStr "") (PyStr "fr") ∅).1.1
           (transcribe_audio Demo.good Demo.riff (PyStr "") (PyStr "fr") ∅).2
           (PyStr "audio.wav") Demo.riff (PyStr "fr"));
    [vm_compute; reflexivity | vm_compute; repeat constructor].
Defined.

Lemma url_request_runs_end_to_end_witness :
  main Demo.good Demo.args_url ∅
  = (inr (Response 200
            [("transcription_text", BStr "hello");
             ("full_transcription",
              BObj (Demo.Transcript "hello" (PyStr "en")))]),
     ∅,
     [EHttpGet (PyStr "http://example.org/a.mp3");
      ECallConvert (Some Demo.id3) (PyStr "audio.wav");
      ETmpCreate 0%nat "audio.wav"; EFromFile 0%nat (Some "wav");
      EUnlink 0%nat;
      ECallTranscribe Demo.id3 (PyStr "audio.wav") (PyStr "en");
      ETmpCreate 0%nat ".wav";
      EServiceCall (PyStr "audio.wav") Demo.id3 (PyStr "en");
      EUnlink 0%nat]).
Proof.
  eapply eq_trans.
  - apply (url_request_runs_end_to_end Demo.good Demo.args_url ∅
             (PyStr "http://example.org/a.mp3") (HttpResponse 200 Demo.id3)
             "audio.wav" "/usr/bin/ffmpeg" (Some "wav")
             Demo.id3 Demo.id3 Demo.id3 Demo.id3 Demo.id3
             (Demo.Transcript "hello" (PyStr "en")));
      reflexivity.
  - vm_compute. reflexivity.
Defined.


Lemma main_sends_normalized_audio_witness :
  PyStr "en" = args_get Demo.args_data "language" (PyStr "en") /\
  PyStr "audio.wav" = PyStr "audio.wav" /\
  exists d tc,
    convert_audio_to_wav Demo.good d
      (args_get Demo.args_data "filename" (PyStr "audio.wav")) ∅
    = (inr Demo.riff, ∅, tc).
Proof.
  apply (main_sends_normalized_audio Demo.good Demo.args_data ∅ ∅
           (inr Demo.ok_response) Demo.ok_trace
           (PyStr "audio.wav") Demo.riff (PyStr "en"));
    [vm_compute; reflexivity | vm_compute; repeat constructor].
Defined.

Lemma main_normalizes_the_resolved_bytes_witness :
  PyStr "audio.wav" = args_get Demo.args_data "filename" (PyStr "audio.wav") /\
  exists b, Some Demo.riff = Some b /\
    ((exists v, Demo.args_data !! "audio_data" = Some v /\
                b64decode Demo.good v = inr b) \/
     (exists u re, Demo.args_data !! "audio_data" = None /\
                   Demo.args_data !! "audio_url" = Some u /\
                   requests_get Demo.good u = inr re /\
                   status_code re = 200 /\ content re = b)).
Proof.
  apply (main_normalizes_the_resolved_bytes Demo.good Demo.args_data ∅ ∅
           (inr Demo.ok_response) Demo.ok_trace
           (Some Demo.riff) (PyStr "audio.wav"));
    [vm_compute; reflexivity | vm_compute; repeat constructor].
Defined.

Lemma status_400_exactly_on_validation_failure_witness :
  400 = 400 <->
  Demo.args_url !! "audio_data" = None /\
  (Demo.args_url !! "audio_url" = None \/
   exists u re, Demo.args_url !! "audio_url" = Some u /\
                requests_get (Demo.env 404 Demo.always true) u = inr re /\
                status_code re <> 200).
Proof.
  apply (status_400_exactly_on_validation_failure
           (Demo.env 404 Demo.always true) Demo.args_url ∅ ∅
           (Response 400
              [("error",
                BStr "Failed to download audio from URL. Status code: 404")])
           [EHttpGet (PyStr "http://example.org/a.mp3")]).
  vm_compute. reflexivity.
Defined.

Lemma main_decodes_only_known_formats_witness : In "wav" known_formats.
Proof.
  apply (main_decodes_only_known_formats Demo.good Demo.args_data ∅ ∅
           (inr Demo.ok_response) Demo.ok_trace 0%nat "wav");
    [vm_compute; reflexivity | vm_compute; repeat constructor].
Defined.

Lemma refused_temp_file_raises_early_witness :
  convert_audio_to_wav Demo.good (Some Demo.riff) (PyStr "in/talk.mp3") ∅
  = (inl (Exception "No such file or directory"), ∅,
     [ECallConvert (Some Demo.riff) (PyStr "in/talk.mp3");
      EPrint ("Error converting audio: " +:+ "No such file or directory")]).
Proof.
  apply (refused_temp_file_raises_early Demo.good (Some Demo.riff)
           (PyStr "in/talk.mp3") ∅ "/usr/bin/ffmpeg" "in/talk.mp3"
           (Exception "No such file or directory"));
    reflexivity.
Defined.


Lemma non_string_filename_raises_early_witness :
  exists e t,
    convert_audio_to_wav Demo.good (Some Demo.riff) (PyInt 7) ∅ = (inl e, ∅, t) /\
    decode_attempts t = [] /\
    forall p s, ETmpCreate p s ∉ t.
Proof.
  apply (non_string_filename_raises_early Demo.good (Some Demo.riff) (PyInt 7) ∅);
    reflexivity.
Defined.

Lemma falsy_filename_uses_default_suffix_witness :
  (forall p s,
      ETmpCreate p s
        ∈ (convert_audio_to_wav Demo.good (Some Demo.riff) PyNone ∅).2 ->
      s = ".audio") /\
  Forall (fun fmt => fmt = None)
    (decode_attempts
       (convert_audio_to_wav Demo.good (Some Demo.riff) PyNone ∅).2).
Proof.
  apply (falsy_filename_uses_default_suffix Demo.good (Some Demo.riff) PyNone ∅
           (convert_audio_to_wav Demo.good (Some Demo.riff) PyNone ∅).1.2
           (convert_audio_to_wav Demo.good (Some Demo.riff) PyNone ∅).1.1
           (convert_audio_to_wav Demo.good (Some Demo.riff) PyNone ∅).2);
    [reflexivity | vm_compute; reflexivity].
Defined.


